(** * FFmpeg + Dropbox merger: a shallow embedding of [server.js]

    The development follows the layout of the service: JavaScript values and
    the runtime the code relies on, the world the handler acts on (staging
    files, outbound calls, console), the helpers of [server.js] in source
    order, the [POST /merge] handler, and then the properties of the
    transfer-transcode-transfer pipeline. *)

From Stdlib Require Import ZArith QArith String Ascii List Lia.
From Stdlib.Init Require Import Byte.
From stdpp Require Import gmap strings list pretty.

Local Open Scope string_scope.
Local Open Scope list_scope.

(** ** JavaScript values *)

(** The JSON scalars a request field or a provider reply can hold.  A key
    that is absent from an object reads as [VUndef]. *)
Inductive value :=
| VUndef
| VNull
| VBool (b : bool)
| VNum (q : Q)
| VStr (s : string).

(** A JavaScript object used as a record of named fields. *)
Definition jsobj := list (string * value).

Fixpoint get_field (k : string) (o : jsobj) : value :=
  match o with
  | [] => VUndef
  | (k', v) :: o' => if String.eqb k' k then v else get_field k o'
  end.

(** [!v] is [negb (truthy v)]. *)
Definition truthy (v : value) : bool :=
  match v with
  | VUndef | VNull => false
  | VBool b => b
  | VNum q => negb (Qeq_bool q 0)
  | VStr s => negb (String.eqb s "")
  end.

(** [a || b] on values. *)
Definition js_or (a b : value) : value := if truthy a then a else b.

(** A destructuring default [{ x = d }]: only [undefined] is replaced. *)
Definition with_default (d v : value) : value :=
  match v with VUndef => d | _ => v end.

(** [s.endsWith(suffix)]. *)
Definition endsWith (s suffix : string) : bool :=
  let n := String.length s in
  let k := String.length suffix in
  (k <=? n)%nat && String.eqb (substring (n - k) k s) suffix.

(** ** The [URL] class of the runtime *)

Record URL := {
  protocol : string;
  username : string;
  password : string;
  hostname : string;
  port : string;
  pathname : string;
  searchParams : list (string * string);
  hash : string
}.

Definition with_searchParams (u : URL) (sp : list (string * string)) : URL :=
  {| protocol := protocol u; username := username u; password := password u;
     hostname := hostname u; port := port u; pathname := pathname u;
     searchParams := sp; hash := hash u |}.

Module URLSearchParams.

Definition has (name : string) (l : list (string * string)) : bool :=
  existsb (fun p => String.eqb (fst p) name) l.

Definition getAll (name : string) (l : list (string * string)) : list string :=
  map snd (List.filter (fun p => String.eqb (fst p) name) l).

Definition append (name v : string) (l : list (string * string)) :=
  l ++ [(name, v)].

Definition without (name : string) (l : list (string * string)) :=
  List.filter (fun p => negb (String.eqb (fst p) name)) l.

(** [set]: the first pair called [name] takes the value, the other pairs
    called [name] are removed; with no such pair the pair is appended. *)
Fixpoint set (name v : string) (l : list (string * string)) :=
  match l with
  | [] => [(name, v)]
  | (k, x) :: l' =>
      if String.eqb k name then (name, v) :: without name l'
      else (k, x) :: set name v l'
  end.

End URLSearchParams.

(** ** The fluent-ffmpeg command builder *)

(** The builder calls [server.js] makes on its command object, in order. *)
Inductive ffcall :=
| Input (source : string)
| InputOptions (options : list string)
| OutputOptions (options : list string)
| VideoCodec (codec : string)
| AudioCodec (codec : string)
| AudioBitrate (bitrate : value).

(** ** Outbound calls *)

Record UploadArgs := {
  arg_path : value;
  arg_mode : string;
  arg_autorename : bool;
  arg_mute : bool
}.

Record Cursor := {
  session_id : value;
  offset : Z
}.

(** One constructor per outbound operation of the service: the HTTP calls
    made through axios (bearer header, [Dropbox-API-Arg] and body as sent)
    and the run of the transcode engine. *)
Inductive call :=
| GetTemporaryLink (authorization : string) (path : value)
| HttpGet (url : value)
| FilesUpload (authorization : string) (args : UploadArgs) (body : list byte)
| SessionStart (authorization : string) (close : bool)
| SessionAppend (authorization : string) (cursor : Cursor) (close : bool)
    (body : list byte)
| SessionFinish (authorization : string) (cursor : Cursor) (commit : UploadArgs)
    (body : list byte)
| FfmpegSave (cmd : list ffcall) (output : string).

(** What an awaited [axios.post] settles to: the promise rejects, or
    resolves with [resp.data]. *)
Inductive post_reply :=
| PostFail (message : string)
| PostOk (data : jsobj).

(** What [axios.get] with [responseType: 'stream'] settles to: the request
    is rejected, or a stream delivers [received] and then ends or breaks. *)
Inductive get_reply :=
| GetFail (message : string)
| GetStream (received : list byte) (broken : option string).

(** The terminal event of the engine with what it left at the output path. *)
Inductive ff_terminal :=
| FfEnd
| FfError (message : string).

Record ff_reply := {
  ff_started : bool;
  ff_progress : nat;
  ff_written : option (list byte);
  ff_terminal_event : ff_terminal
}.

(** ** Runtime and environment

    Everything [server.js] reads from outside itself: the process
    environment, the clock, the identifier source, the remote parties and
    the [URL] and [Number] classes of the JavaScript runtime
    ([Number_parse] answers [None] for a string that converts to NaN). *)
Record Env := {
  DROPBOX_TOKEN : option string;
  tmpdir : string;
  randomUUID : nat -> string;
  Date_now : list call -> Z;
  axios_post : list call -> call -> post_reply;
  axios_get : list call -> value -> get_reply;
  ffmpeg_run : list call -> list ffcall -> string -> ff_reply;
  URL_parse : string -> option URL;
  URL_toString : URL -> string;
  Number_toString : Q -> string;
  Number_parse : string -> option Q
}.

(** ** World *)

Record World := {
  files : gmap string (list byte);
  calls : list call;
  console : list string;
  uuids : nat
}.

Definition set_files (f : gmap string (list byte)) (w : World) : World :=
  {| files := f; calls := calls w; console := console w; uuids := uuids w |}.

Definition add_call (c : call) (w : World) : World :=
  {| files := files w; calls := calls w ++ [c]; console := console w;
     uuids := uuids w |}.

Definition add_calls (l : list call) (w : World) : World :=
  {| files := files w; calls := calls w ++ l; console := console w;
     uuids := uuids w |}.

Definition add_line (s : string) (w : World) : World :=
  {| files := files w; calls := calls w; console := console w ++ [s];
     uuids := uuids w |}.

Definition next_uuid (w : World) : World :=
  {| files := files w; calls := calls w; console := console w;
     uuids := S (uuids w) |}.

(** ** Effects: state, exceptions and an exhausted loop budget *)

Inductive outcome (A : Type) :=
| Ok (a : A)
| Throw (message : string)
| Diverge.

Arguments Ok {A} a.
Arguments Throw {A} message.
Arguments Diverge {A}.

Definition M (A : Type) := World -> outcome A * World.

Definition ret {A} (a : A) : M A := fun w => (Ok a, w).

Definition throw {A} (msg : string) : M A := fun w => (Throw msg, w).

Definition bind {A B} (m : M A) (k : A -> M B) : M B :=
  fun w =>
    match m w with
    | (Ok a, w') => k a w'
    | (Throw msg, w') => (Throw msg, w')
    | (Diverge, w') => (Diverge, w')
    end.

(** [try { m } catch (err) { h err.message }] *)
Definition try_catch {A} (m : M A) (h : string -> M A) : M A :=
  fun w =>
    match m w with
    | (Throw msg, w') => h msg w'
    | r => r
    end.

Notation "x <~ m ;; k" := (bind m (fun x => k))
  (at level 100, m at level 99, k at level 200, right associativity).
Notation "m ;;; k" := (bind m (fun _ => k))
  (at level 100, k at level 200, right associativity).

(** ** Requests and responses of [POST /merge] *)

Record Body := {
  audio_url : value;
  video_url : value;
  audio_path : value;
  video_path : value;
  out_path : value;
  audio_offset_sec : value;
  trim_to_shortest : value;
  reencode_video : value;
  audio_bitrate : value
}.

(** [{}]: every field reads as [undefined]. *)
Definition empty_body : Body :=
  {| audio_url := VUndef; video_url := VUndef; audio_path := VUndef;
     video_path := VUndef; out_path := VUndef; audio_offset_sec := VUndef;
     trim_to_shortest := VUndef; reencode_video := VUndef;
     audio_bitrate := VUndef |}.

(** [req.body] is [None] when the request came without a JSON body. *)
Record Request := { body : option Body }.

(** [req.body || {}] *)
Definition body_of (req : Request) : Body :=
  match body req with Some b => b | None => empty_body end.

Inductive ResponseBody :=
| ErrorBody (error : string)
| MergedBody (out_path : value) (uploaded : jsobj) (elapsed_sec : Z).

(** [res.status(s).json(b)]; [res.json(b)] answers with status 200. *)
Record Response := json { status : Z; payload : ResponseBody }.

Definition CHUNK : Z := 8 * 1024 * 1024.

(** [{ path, mode: 'overwrite', autorename: false, mute: false }] *)
Definition overwrite_args (dest : value) : UploadArgs :=
  {| arg_path := dest; arg_mode := "overwrite"; arg_autorename := false;
     arg_mute := false |}.

Section Server.

Variable E : Env.

(** [String(v)] *)
Definition String_ (v : value) : string :=
  match v with
  | VUndef => "undefined"
  | VNull => "null"
  | VBool true => "true"
  | VBool false => "false"
  | VNum q => Number_toString E q
  | VStr s => s
  end.

(** ** Helpers of [server.js] *)

Definition log (step : string) : M unit :=
  fun w => (Ok tt, add_line step w).

Definition tmpFile (suffix : string) : M string :=
  fun w =>
    (Ok (tmpdir E +:+ "/" +:+ randomUUID E (uuids w) +:+ suffix), next_uuid w).

Definition isDropboxSharedLink (url : value) : bool :=
  match URL_parse E (String_ url) with
  | Some u =>
      endsWith (hostname u) "dropbox.com" || endsWith (hostname u) "db.tt"
  | None => false
  end.

Definition toDirectDownload (url : value) : value :=
  match URL_parse E (String_ url) with
  | Some u =>
      let sp :=
        if URLSearchParams.has "dl" (searchParams u)
        then URLSearchParams.set "dl" "1" (searchParams u)
        else URLSearchParams.append "dl" "1" (searchParams u) in
      VStr (URL_toString E (with_searchParams u sp))
  | None => url
  end.

(** [!DROPBOX_TOKEN] *)
Definition token_missing : bool :=
  match DROPBOX_TOKEN E with
  | None => true
  | Some t => String.eqb t ""
  end.

(** [`Bearer ${DROPBOX_TOKEN}`] *)
Definition bearer : string :=
  "Bearer " +:+ match DROPBOX_TOKEN E with
                | Some t => t
                | None => "undefined"
                end.

(** [await axios.post(...)]: the call leaves the process, then the promise
    settles. *)
Definition post (c : call) : M jsobj :=
  fun w =>
    match axios_post E (calls w) c with
    | PostOk d => (Ok d, add_call c w)
    | PostFail msg => (Throw msg, add_call c w)
    end.

Definition dropboxTemporaryLinkByPath (dbxPath : value) : M value :=
  if token_missing then throw "Missing DROPBOX_ACCESS_TOKEN env var"
  else
    data <~ post (GetTemporaryLink bearer dbxPath) ;;
    ret (get_field "link" data).

(** [await axios.get(url, { responseType: 'stream' })] followed by
    [await pipeline(resp.data, fs.createWriteStream(outFile))]: the file is
    created once the response is there and holds what the stream
    delivered, also when the stream breaks. *)
Definition get_to_file (url : value) (outFile : string) : M unit :=
  fun w =>
    match axios_get E (calls w) url with
    | GetFail msg => (Throw msg, add_call (HttpGet url) w)
    | GetStream received broken =>
        let w' := set_files (<[outFile := received]> (files w))
                            (add_call (HttpGet url) w) in
        match broken with
        | Some msg => (Throw msg, w')
        | None => (Ok tt, w')
        end
    end.

Definition downloadToTemp (url dropboxPath : value) (extFallback : string)
  : M string :=
  let url := with_default VNull url in
  let dropboxPath := with_default VNull dropboxPath in
  directUrl <~ (if negb (truthy url) && truthy dropboxPath
                then dropboxTemporaryLinkByPath dropboxPath
                else ret url) ;;
  if negb (truthy directUrl) then throw "Provide either url or dropboxPath"
  else
    let directUrl :=
      if isDropboxSharedLink directUrl then toDirectDownload directUrl
      else directUrl in
    outFile <~ tmpFile extFallback ;;
    log "download.start" ;;;
    get_to_file directUrl outFile ;;;
    log "download.done" ;;;
    ret outFile.

(** *** File system calls *)

Definition statSync_size (p : string) : M Z :=
  fun w =>
    match files w !! p with
    | Some content => (Ok (Z.of_nat (length content)), w)
    | None => (Throw "ENOENT: no such file or directory", w)
    end.

Definition readFileSync (p : string) : M (list byte) :=
  fun w =>
    match files w !! p with
    | Some content => (Ok content, w)
    | None => (Throw "ENOENT: no such file or directory", w)
    end.

(** [fs.openSync(p, 'r')]: the descriptor stands for the bytes of the
    file; [fs.closeSync] in the [finally] block has no effect on the
    world. *)
Definition openSync (p : string) : M (list byte) := readFileSync p.

Definition unlinkSync (p : string) : M unit :=
  fun w =>
    match files w !! p with
    | Some _ => (Ok tt, set_files (delete p (files w)) w)
    | None => (Throw "ENOENT: no such file or directory", w)
    end.

(** [fs.readSync(fd, buffer, 0, length, position)]: the file is read in
    full up to its end, the bytes read overwrite the head of the shared
    buffer; the result is the number of bytes read, as [fs.readSync]
    returns it, and the buffer afterwards. *)
Definition readSync (fd buffer : list byte) (len position : Z)
  : Z * list byte :=
  let data := take (Z.to_nat len) (drop (Z.to_nat position) fd) in
  (Z.of_nat (length data), data ++ drop (length data) buffer).

(** [const { bytesRead } = n], for the number [n] that [fs.readSync]
    returns: a number has no property [bytesRead], so the name is bound to
    [undefined] ([None]) whatever the count. *)
Definition bytesRead_of (returned : Z) : option Z := None.

(** [offset + bytesRead]: NaN ([None]) when [bytesRead] is [undefined]. *)
Definition plus_bytesRead (offset : Z) (bytesRead : option Z) : option Z :=
  match bytesRead with
  | Some n => Some (offset + n)%Z
  | None => None
  end.

(** [x >= size] for an [x] that may be NaN: a comparison with NaN is
    false. *)
Definition ge_size (x : option Z) (size : Z) : bool :=
  match x with
  | Some v => (size <=? v)%Z
  | None => false
  end.

(** [buffer.subarray(0, end)] at the time the request body is sent; an
    [undefined] end is the length of the buffer. *)
Definition subarray0 (buffer : list byte) (end_ : option Z) : list byte :=
  match end_ with
  | Some n => take (Z.to_nat n) buffer
  | None => buffer
  end.

(** The [while (offset < size)] loop of [dropboxUpload]; [offset] is a
    number that may be NaN ([None]), for which [offset < size] is false.
    [fuel] bounds the number of iterations and [Diverge] marks an exhausted
    budget. *)
Fixpoint upload_loop (fuel : nat) (chunk size : Z) (fd : list byte)
    (sessionId dropboxDestPath : value) (offset : option Z)
    (buffer : list byte) : M unit :=
  match offset with
  | Some offset =>
      if (offset <? size)%Z then
        match fuel with
        | O => fun w => (Diverge, w)
        | S fuel' =>
            let toRead := Z.min chunk (size - offset) in
            let '(returned, buffer) := readSync fd buffer toRead offset in
            let bytesRead := bytesRead_of returned in
            let isLast := ge_size (plus_bytesRead offset bytesRead) size in
            let cursor := {| session_id := sessionId; offset := offset |} in
            (if negb isLast
             then post (SessionAppend bearer cursor false
                          (subarray0 buffer bytesRead))
             else post (SessionFinish bearer cursor
                          (overwrite_args dropboxDestPath)
                          (subarray0 buffer bytesRead))) ;;;
            upload_loop fuel' chunk size fd sessionId dropboxDestPath
              (plus_bytesRead offset bytesRead) buffer
        end
      else ret tt
  | None => ret tt
  end.

Definition dropboxUpload (fuel : nat) (localPath : string)
    (dropboxDestPath : value) : M jsobj :=
  size <~ statSync_size localPath ;;
  if (size <=? 150 * 1024 * 1024)%Z then
    content <~ readFileSync localPath ;;
    data <~ post (FilesUpload bearer (overwrite_args dropboxDestPath)
                    content) ;;
    ret data
  else
    startResp <~ post (SessionStart bearer false) ;;
    let sessionId := get_field "session_id" startResp in
    fd <~ openSync localPath ;;
    let buffer := replicate (Z.to_nat CHUNK) x00 in
    upload_loop fuel CHUNK size fd sessionId dropboxDestPath (Some 0%Z)
      buffer ;;;
    ret [("path_display", dropboxDestPath); ("size", VNum (inject_Z size))].

(** ** The [POST /merge] handler *)

(** [ToNumber(v)]; [None] is NaN. *)
Definition ToNumber (v : value) : option Q :=
  match v with
  | VUndef => None
  | VNull => Some 0%Q
  | VBool true => Some 1%Q
  | VBool false => Some 0%Q
  | VNum q => Some q
  | VStr s => Number_parse E s
  end.

(** [v !== 0] *)
Definition strict_ne_zero (v : value) : bool :=
  match v with
  | VNum q => negb (Qeq_bool q 0)
  | _ => true
  end.

(** [v > 0] *)
Definition gt_zero (v : value) : bool :=
  match ToNumber v with
  | Some q => negb (Qle_bool q 0)
  | None => false
  end.

(** [String(-v)] *)
Definition String_neg (v : value) : string :=
  match ToNumber v with
  | Some q => Number_toString E (- q)%Q
  | None => "NaN"
  end.

(** The builder calls of lines 243 to 270, from [ffmpegLib()] to
    [audioBitrate], in the order the handler makes them. *)
Definition merge_command (videoTmp audioTmp : string)
    (audio_offset_sec trim_to_shortest reencode_video audio_bitrate : value)
  : list ffcall :=
  [Input videoTmp; Input audioTmp]
  ++ (if strict_ne_zero audio_offset_sec then
        if gt_zero audio_offset_sec then
          [InputOptions ["-itsoffset"; String_ audio_offset_sec];
           Input audioTmp]
        else
          [InputOptions ["-itsoffset"; String_neg audio_offset_sec];
           Input videoTmp]
      else [])
  ++ (if truthy trim_to_shortest then [OutputOptions ["-shortest"]] else [])
  ++ (if truthy reencode_video then
        [VideoCodec "libx264";
         OutputOptions ["-preset"; "veryfast"; "-movflags"; "+faststart"]]
      else [OutputOptions ["-c:v"; "copy"]])
  ++ [AudioCodec "aac"; AudioBitrate audio_bitrate].

(** [cmd.on(...).save(outTmp)] awaited through the promise: the engine
    runs, the listeners log, [error] rejects and [end] resolves. *)
Definition save (cmd : list ffcall) (outTmp : string) : M unit :=
  fun w =>
    let r := ffmpeg_run E (calls w) cmd outTmp in
    let w1 := add_call (FfmpegSave cmd outTmp) w in
    let w2 := match ff_written r with
              | Some bytes => set_files (<[outTmp := bytes]> (files w1)) w1
              | None => w1
              end in
    let w3 := if ff_started r then add_line "ffmpeg.start" w2 else w2 in
    let w4 := Nat.iter (ff_progress r) (add_line "ffmpeg.progress") w3 in
    match ff_terminal_event r with
    | FfError msg => (Throw msg, add_line "ffmpeg.error" w4)
    | FfEnd => (Ok tt, add_line "ffmpeg.done" w4)
    end.

(** [try { fs.unlinkSync(f); } catch {}] *)
Definition unlink_quietly (f : string) : M unit :=
  try_catch (unlinkSync f) (fun _ => ret tt).

Fixpoint for_each {A} (l : list A) (body : A -> M unit) : M unit :=
  match l with
  | [] => ret tt
  | x :: l' => body x ;;; for_each l' body
  end.

Definition now : M Z := fun w => (Ok (Date_now E (calls w)), w).

Definition merge_handler (fuel : nat) (req : Request) : M Response :=
  start <~ now ;;
  try_catch
    (if token_missing then
       ret (json 400 (ErrorBody "Server missing DROPBOX_ACCESS_TOKEN env var"))
     else
       let b := body_of req in
       let audio_offset_sec := with_default (VNum 0) (audio_offset_sec b) in
       let trim_to_shortest := with_default (VBool true) (trim_to_shortest b) in
       let reencode_video := with_default (VBool false) (reencode_video b) in
       let audio_bitrate := with_default (VStr "192k") (audio_bitrate b) in
       if negb (truthy (out_path b)) then
         ret (json 400 (ErrorBody "Missing out_path (Dropbox destination path)"))
       else if negb (truthy (js_or (audio_url b) (audio_path b))) then
         ret (json 400 (ErrorBody "Provide audio_url or audio_path"))
       else if negb (truthy (js_or (video_url b) (video_path b))) then
         ret (json 400 (ErrorBody "Provide video_url or video_path"))
       else
         audioTmp <~ downloadToTemp (audio_url b) (audio_path b) ".mp3" ;;
         videoTmp <~ downloadToTemp (video_url b) (video_path b) ".mp4" ;;
         outTmp <~ tmpFile ".mp4" ;;
         let cmd := merge_command videoTmp audioTmp audio_offset_sec
                      trim_to_shortest reencode_video audio_bitrate in
         save cmd outTmp ;;;
         uploaded <~ dropboxUpload fuel outTmp (out_path b) ;;
         for_each [audioTmp; videoTmp; outTmp] unlink_quietly ;;;
         finish <~ now ;;
         let elapsed := ((finish - start + 500) / 1000)%Z in
         ret (json 200 (MergedBody (out_path b) uploaded elapsed)))
    (fun message =>
       log "merge.error" ;;;
       ret (json 500 (ErrorBody message))).

End Server.

(** ** What fluent-ffmpeg makes of the builder calls

    The library keeps the declared inputs in [_inputs] and the input added
    last in [_currentInput].  [input(source)] pushes a new input without
    options and makes it current; [inputOptions(options)] adds the options
    to the current input, that is to the input added last, and throws
    ['No input specified'] when there is none.  The arguments handed to the
    engine list, for each input in order, its options and then
    [-i source]. *)

Record ffinput := {
  source : string;
  options : list string
}.

Fixpoint add_to_current (opts : list string) (inputs : list ffinput)
  : option (list ffinput) :=
  match inputs with
  | [] => None
  | i :: rest =>
      match rest with
      | [] => Some [{| source := source i; options := options i ++ opts |}]
      | _ => option_map (cons i) (add_to_current opts rest)
      end
  end.

Fixpoint declare_inputs (cmd : list ffcall) (inputs : list ffinput)
  : option (list ffinput) :=
  match cmd with
  | [] => Some inputs
  | Input src :: cmd' =>
      declare_inputs cmd' (inputs ++ [{| source := src; options := [] |}])
  | InputOptions opts :: cmd' =>
      match add_to_current opts inputs with
      | Some inputs' => declare_inputs cmd' inputs'
      | None => None
      end
  | _ :: cmd' => declare_inputs cmd' inputs
  end.

Definition declared_inputs (cmd : list ffcall) : option (list ffinput) :=
  declare_inputs cmd [].

Definition input_arguments (inputs : list ffinput) : list string :=
  flat_map (fun i => options i ++ ["-i"; source i]) inputs.

(** The calls of the builder that are not about inputs. *)
Definition output_directives (cmd : list ffcall) : list ffcall :=
  List.filter (fun c => match c with
                        | Input _ | InputOptions _ => false
                        | _ => true
                        end) cmd.

(** ** Vocabulary of the properties *)

(** The body an outbound call carries. *)
Definition sent_body (c : call) : list byte :=
  match c with
  | FilesUpload _ _ b => b
  | SessionAppend _ _ _ b => b
  | SessionFinish _ _ _ b => b
  | _ => []
  end.

(** The bytes a sequence of calls delivers, in order. *)
Definition delivered (l : list call) : list byte :=
  concat (map sent_body l).

Definition sent_bytes (l : list call) : Z := Z.of_nat (length (delivered l)).

Definition cursor_of (c : call) : option Cursor :=
  match c with
  | SessionAppend _ cur _ _ => Some cur
  | SessionFinish _ cur _ _ => Some cur
  | _ => None
  end.

Definition is_append (c : call) : bool :=
  match c with SessionAppend _ _ _ _ => true | _ => false end.

Definition is_finish (c : call) : bool :=
  match c with SessionFinish _ _ _ _ => true | _ => false end.

Definition session_call (c : call) : bool := is_append c || is_finish c.

(** [ceil(s / c)] for a positive [c]. *)
Definition ceil_div (s c : Z) : Z := ((s + c - 1) / c)%Z.

(** The bytes of [fd] from [pos], [len] of them (fewer at the end of the
    file). *)
Definition slice (fd : list byte) (pos len : Z) : list byte :=
  take (Z.to_nat len) (drop (Z.to_nat pos) fd).

(** The append that carries the first [chunk] bytes of the file, at
    offset 0. *)
Definition first_append (E : Env) (sid : value) (chunk : Z) (fd : list byte)
  : call :=
  SessionAppend (bearer E) {| session_id := sid; offset := 0 |} false
    (slice fd 0 chunk).

(** The provider accepts every request: each awaited [axios.post]
    resolves. *)
Definition accepting (E : Env) : Prop :=
  forall history c, exists data, axios_post E history c = PostOk data.

Definition falsy (v : value) : Prop := truthy v = false.

(** [emits P m]: whatever the world, [m] only adds calls, and every call it
    adds satisfies [P]. *)
Definition emits {A} (P : call -> Prop) (m : M A) : Prop :=
  forall w, exists sent,
    calls (snd (m w)) = calls w ++ sent /\ Forall P sent.

(** [Q] holds of the command of the call when the call is an engine run. *)
Definition on_engine_runs (Q : list ffcall -> Prop) (c : call) : Prop :=
  match c with
  | FfmpegSave cmd _ => Q cmd
  | _ => True
  end.

(** The hostname is on one of the provider's sharing domains. *)
Definition sharing_domain (host : string) : bool :=
  endsWith host "dropbox.com" || endsWith host "db.tt".

(** [sp'] is [sp] with the [dl] parameter forced to [1].  When [sp] has no
    [dl] pair, the pair is appended.  When it has one, the first [dl] pair
    takes the value [1] where it stands and the later [dl] pairs are
    dropped.  Either way one [dl] pair is left, it holds [1], and the pairs
    of every other name are as they were. *)
Definition dl_forced (sp sp' : list (string * string)) : Prop :=
  URLSearchParams.getAll "dl" sp' = ["1"]
  /\ URLSearchParams.without "dl" sp' = URLSearchParams.without "dl" sp
  /\ (URLSearchParams.has "dl" sp = false -> sp' = sp ++ [("dl", "1")])
  /\ (URLSearchParams.has "dl" sp = true ->
      exists before old after,
        sp = before ++ ("dl", old) :: after
        /\ URLSearchParams.has "dl" before = false
        /\ sp' = before ++ ("dl", "1") :: URLSearchParams.without "dl" after).

(** What is downloaded for a reference [d], as the specification words it:
    a URL on a sharing domain is fetched with [dl] forced to [1], anything
    else as it is. *)
Inductive fetched_as (E : Env) (d : value) : value -> Prop :=
| fetched_rewritten u sp' :
    URL_parse E (String_ E d) = Some u ->
    sharing_domain (hostname u) = true ->
    dl_forced (searchParams u) sp' ->
    fetched_as E d (VStr (URL_toString E (with_searchParams u sp')))
| fetched_unmodified :
    (forall u, URL_parse E (String_ E d) = Some u ->
               sharing_domain (hostname u) = false) ->
    fetched_as E d d.

(** ** Scenarios

    Concrete environments, requests and worlds on which the properties are
    run: a provider that accepts every call, an engine that ends or fails,
    and a [URL] class that knows the two addresses used. *)

Module Scenario.

Definition uuid (n : nat) : string := "staged-" +:+ pretty n.

(** Decimal rendering, exact on the integers. *)
Definition show (q : Q) : string :=
  if (Qden q =? 1)%positive then pretty (Qnum q)
  else pretty (Qnum q) +:+ "/" +:+ pretty (Zpos (Qden q)).

Definition shared_link : string :=
  "https://www.dropbox.com/s/abc/voice.mp3?dl=0".

Definition plain_link : string := "https://cdn.example/clip.mp4".

Definition parse (s : string) : option URL :=
  if String.eqb s shared_link then
    Some {| protocol := "https:"; username := ""; password := "";
            hostname := "www.dropbox.com"; port := "";
            pathname := "/s/abc/voice.mp3"; searchParams := [("dl", "0")];
            hash := "" |}
  else if String.eqb s plain_link then
    Some {| protocol := "https:"; username := ""; password := "";
            hostname := "cdn.example"; port := "";
            pathname := "/clip.mp4"; searchParams := []; hash := "" |}
  else None.

Fixpoint query (sp : list (string * string)) : string :=
  match sp with
  | [] => ""
  | [(k, v)] => k +:+ "=" +:+ v
  | (k, v) :: sp' => k +:+ "=" +:+ v +:+ "&" +:+ query sp'
  end.

Definition serialize (u : URL) : string :=
  protocol u +:+ "//" +:+ hostname u +:+ pathname u
  +:+ match searchParams u with [] => "" | sp => "?" +:+ query sp end.

Definition metadata (c : call) : jsobj :=
  match c with
  | GetTemporaryLink _ _ => [("link", VStr plain_link)]
  | SessionStart _ _ => [("session_id", VStr "session-1")]
  | FilesUpload _ args body
  | SessionFinish _ _ args body =>
      [("name", VStr "merged.mp4"); ("path_display", arg_path args);
       ("id", VStr "id:a4ayc_80_OEAAAAAAAAAXw"); ("rev", VStr "a1c10ce0dd78")]
  | _ => []
  end.

Definition engine_ends : ff_reply :=
  {| ff_started := true; ff_progress := 2; ff_written := Some [x0a; x0b];
     ff_terminal_event := FfEnd |}.

Definition engine_fails : ff_reply :=
  {| ff_started := true; ff_progress := 0; ff_written := None;
     ff_terminal_event := FfError "ffmpeg exited with code 1" |}.

Definition service (token : option string) (engine : ff_reply) : Env :=
  {| DROPBOX_TOKEN := token;
     tmpdir := "/tmp";
     randomUUID := uuid;
     Date_now := fun history => (1000 * Z.of_nat (length history))%Z;
     axios_post := fun _ c => PostOk (metadata c);
     axios_get := fun _ _ => GetStream [x01; x02; x03] None;
     ffmpeg_run := fun _ _ _ => engine;
     URL_parse := parse;
     URL_toString := serialize;
     Number_toString := show;
     Number_parse := fun _ => None |}.

Definition provider : Env := service (Some "token") engine_ends.

(** The same service with an engine that reports an error. *)
Definition failing_engine : Env := service (Some "token") engine_fails.

(** The same service with a provider that refuses the upload call. *)
Definition refusing_upload : Env :=
  {| DROPBOX_TOKEN := Some "token";
     tmpdir := "/tmp";
     randomUUID := uuid;
     Date_now := fun history => (1000 * Z.of_nat (length history))%Z;
     axios_post := fun _ c =>
       match c with
       | FilesUpload _ _ _ => PostFail "Request failed with status code 507"
       | _ => PostOk (metadata c)
       end;
     axios_get := fun _ _ => GetStream [x01; x02; x03] None;
     ffmpeg_run := fun _ _ _ => engine_ends;
     URL_parse := parse;
     URL_toString := serialize;
     Number_toString := show;
     Number_parse := fun _ => None |}.

Definition empty_world : World :=
  {| files := ∅; calls := []; console := []; uuids := 0 |}.

Definition by_path : Request :=
  {| body := Some {| audio_url := VUndef; video_url := VUndef;
                     audio_path := VStr "/a.mp3"; video_path := VStr "/b.mp4";
                     out_path := VStr "/out.mp4"; audio_offset_sec := VUndef;
                     trim_to_shortest := VUndef; reencode_video := VUndef;
                     audio_bitrate := VUndef |} |}.

(** The same request with the audio two seconds early. *)
Definition delayed_video : Request :=
  {| body := Some {| audio_url := VUndef; video_url := VUndef;
                     audio_path := VStr "/a.mp3"; video_path := VStr "/b.mp4";
                     out_path := VStr "/out.mp4";
                     audio_offset_sec := VNum (-2);
                     trim_to_shortest := VUndef; reencode_video := VUndef;
                     audio_bitrate := VUndef |} |}.

(** 150 MiB and five bytes. *)
Definition large_file : list byte := replicate (Z.to_nat 157286405) x00.


Definition staged (content : list byte) : World :=
  {| files := {[ "/tmp/merged.mp4" := content ]}; calls := [];
     console := []; uuids := 3 |}.

End Scenario.

(** ** Vocabulary of the further properties *)

(** Every call of [sent] was accepted by the provider when it was made,
    [h] being the history before the first of them. *)
Definition accepted_run (E : Env) (h sent : list call) : Prop :=
  forall i c, sent !! i = Some c ->
    exists data, axios_post E (h ++ take i sent) c = PostOk data.

(** [c] is a session call for a piece of the file [fd]: its cursor names
    the session [sid] and an offset inside the file, its body is the bytes
    of the file at that offset, at least one and at most [chunk] of them,
    and a full [chunk] when the call is an append. *)
Definition chunk_of (fd : list byte) (chunk : Z) (sid : value) (c : call)
  : Prop :=
  exists cur,
    cursor_of c = Some cur
    /\ session_call c = true
    /\ session_id cur = sid
    /\ (0 <= offset cur)%Z
    /\ sent_body c = slice fd (offset cur) (Z.of_nat (length (sent_body c)))
    /\ (1 <= Z.of_nat (length (sent_body c)) <= chunk)%Z
    /\ (offset cur + Z.of_nat (length (sent_body c)) <= Z.of_nat (length fd))%Z
    /\ (is_append c = true -> Z.of_nat (length (sent_body c)) = chunk).


(** The staging name [tmpFile] hands out when [n] identifiers have been
    drawn. *)
Definition staging_name (E : Env) (n : nat) (suffix : string) : string :=
  tmpdir E +:+ "/" +:+ randomUUID E n +:+ suffix.

(** Every file of [w] is still a file of [w'] (its content may differ). *)
Definition kept (w w' : World) : Prop :=
  forall f, is_Some (files w !! f) -> is_Some (files w' !! f).

(** The query of a URL after [toDirectDownload]. *)
Definition direct_params (sp : list (string * string)) : list (string * string) :=
  if URLSearchParams.has "dl" sp then URLSearchParams.set "dl" "1" sp
  else URLSearchParams.append "dl" "1" sp.

(** A [URL] class that also knows the direct form of the shared link. *)
Module Links.

Definition direct_link : string :=
  "https://www.dropbox.com/s/abc/voice.mp3?dl=1".

Definition parse (s : string) : option URL :=
  if String.eqb s direct_link then
    Some {| protocol := "https:"; username := ""; password := "";
            hostname := "www.dropbox.com"; port := "";
            pathname := "/s/abc/voice.mp3"; searchParams := [("dl", "1")];
            hash := "" |}
  else Scenario.parse s.

Definition runtime : Env :=
  {| DROPBOX_TOKEN := Some "token";
     tmpdir := "/tmp";
     randomUUID := Scenario.uuid;
     Date_now := fun history => (1000 * Z.of_nat (length history))%Z;
     axios_post := fun _ c => PostOk (Scenario.metadata c);
     axios_get := fun _ _ => GetStream [x01; x02; x03] None;
     ffmpeg_run := fun _ _ _ => Scenario.engine_ends;
     URL_parse := parse;
     URL_toString := Scenario.serialize;
     Number_toString := Scenario.show;
     Number_parse := fun _ => None |}.

End Links.

(** The calls of the fetch stage and those of the upload stage. *)
Definition is_fetch (c : call) : bool :=
  match c with
  | GetTemporaryLink _ _ | HttpGet _ => true
  | _ => false
  end.

Definition is_upload (c : call) : bool :=
  match c with
  | FilesUpload _ _ _ | SessionStart _ _ | SessionAppend _ _ _ _
  | SessionFinish _ _ _ _ => true
  | _ => false
  end.

(** The request passes the checks at the head of the handler. *)
Definition valid_request (E : Env) (req : Request) : Prop :=
  token_missing E = false
  /\ truthy (out_path (body_of req)) = true
  /\ truthy (js_or (audio_url (body_of req)) (audio_path (body_of req))) = true
  /\ truthy (js_or (video_url (body_of req)) (video_path (body_of req))) = true.

(** The command the handler builds for a request and two staged inputs. *)
Definition command_of (E : Env) (req : Request) (videoTmp audioTmp : string)
  : list ffcall :=
  merge_command E videoTmp audioTmp
    (with_default (VNum 0) (audio_offset_sec (body_of req)))
    (with_default (VBool true) (trim_to_shortest (body_of req)))
    (with_default (VBool false) (reencode_video (body_of req)))
    (with_default (VStr "192k") (audio_bitrate (body_of req))).

(** * Properties *)

(** ** Worlds *)

Lemma add_calls_nil w : add_calls [] w = w.
Proof. destruct w; unfold add_calls; simpl. by rewrite app_nil_r. Qed.

Lemma add_calls_app l1 l2 w : add_calls l2 (add_calls l1 w) = add_calls (l1 ++ l2) w.
Proof. unfold add_calls; simpl. by rewrite app_assoc. Qed.

(** ** Reading the file chunk by chunk *)

Lemma slice_length fd pos len :
  (0 <= pos)%Z -> (0 <= len)%Z -> (pos + len <= Z.of_nat (length fd))%Z ->
  Z.of_nat (length (slice fd pos len)) = len.
Proof.
  intros. unfold slice. rewrite length_take, length_drop. lia.
Qed.

(** A read of a whole buffer's worth from the head of the file replaces
    the buffer. *)
Lemma readSync_fills fd buffer chunk :
  (0 <= chunk)%Z -> (chunk <= Z.of_nat (length fd))%Z ->
  length buffer = Z.to_nat chunk ->
  snd (readSync fd buffer chunk 0) = slice fd 0 chunk.
Proof.
  intros Hchunk Hfit Hbuffer. unfold readSync, slice. cbn [snd].
  change (Z.to_nat 0) with 0%nat. rewrite drop_0.
  rewrite (drop_ge buffer); [apply app_nil_r|].
  rewrite length_take. lia.
Qed.

Lemma chunk_size : CHUNK = 8388608%Z.
Proof. reflexivity. Qed.

(** Above 150 MiB a file has at least nineteen chunks of 8 MiB. *)
Lemma large_file_chunks size :
  (150 * 1024 * 1024 < size)%Z -> (19 <= ceil_div size CHUNK)%Z.
Proof.
  intros Hsize. unfold ceil_div. rewrite chunk_size.
  apply Z.div_le_lower_bound; lia.
Qed.

(** ** The chunk loop

    After the first turn [offset] is NaN, and the loop is over. *)

Lemma upload_loop_nan E fuel chunk size fd sid dest buffer :
  upload_loop E fuel chunk size fd sid dest None buffer = ret tt.
Proof. by destruct fuel. Qed.

Lemma upload_loop_turn E fuel chunk size fd sid dest o buffer w :
  (o < size)%Z ->
  upload_loop E (S fuel) chunk size fd sid dest (Some o) buffer w
  = (match axios_post E (calls w)
             (SessionAppend (bearer E) {| session_id := sid; offset := o |}
                false (snd (readSync fd buffer (Z.min chunk (size - o)) o)))
     with
     | PostOk _ => Ok tt
     | PostFail msg => Throw msg
     end,
     add_calls
       [SessionAppend (bearer E) {| session_id := sid; offset := o |} false
          (snd (readSync fd buffer (Z.min chunk (size - o)) o))] w).
Proof.
  intros Ho. cbn [upload_loop].
  destruct (Z.ltb_spec o size) as [_|]; [|lia].
  destruct (readSync fd buffer (Z.min chunk (size - o)) o) as [returned buffer'].
  cbn [snd]. unfold bytesRead_of, plus_bytesRead, ge_size, subarray0.
  cbn [negb]. unfold bind, post.
  destruct (axios_post E (calls w) _) as [msg|data]; [reflexivity|].
  by rewrite upload_loop_nan.
Qed.

Lemma upload_loop_sends E chunk size fd sid dest fuel o buffer w :
  exists sent,
    snd (upload_loop E fuel chunk size fd sid dest o buffer w) = add_calls sent w
    /\ forallb is_append sent = true
    /\ (length sent <= 1)%nat.
Proof.
  assert (Hnone : forall r : outcome unit * World,
            snd r = w ->
            exists sent, snd r = add_calls sent w
              /\ forallb is_append sent = true /\ (length sent <= 1)%nat).
  { intros r ->. exists []. rewrite add_calls_nil.
    split; [reflexivity|]. split; [reflexivity|]. cbn. lia. }
  destruct o as [o|]; [|apply Hnone; by rewrite upload_loop_nan].
  destruct (Z.ltb_spec o size) as [Ho|Ho].
  - destruct fuel as [|fuel].
    + apply Hnone. cbn [upload_loop]. by destruct (o <? size)%Z.
    + rewrite upload_loop_turn by done. eexists [_].
      split; [reflexivity|]. split; [reflexivity|]. cbn. lia.
  - apply Hnone.
    destruct fuel; cbn [upload_loop];
      (destruct (Z.ltb_spec o size); [lia|done]).
Qed.

Lemma appends_are_session_calls sent :
  forallb is_append sent = true -> forallb session_call sent = true.
Proof.
  induction sent as [|c sent IH]; [done|]. cbn [forallb].
  intros [Hc Hsent]%andb_prop. unfold session_call at 1.
  by rewrite Hc, IH.
Qed.

Lemma appends_are_not_finishes sent :
  forallb is_append sent = true -> existsb is_finish sent = false.
Proof.
  induction sent as [|c sent IH]; [done|]. cbn [forallb existsb].
  intros [Hc Hsent]%andb_prop. rewrite IH by done.
  by destruct c.
Qed.

Lemma upload_loop_calls E chunk size fd sid dest fuel : forall o buffer w,
  exists sent,
    snd (upload_loop E fuel chunk size fd sid dest o buffer w) = add_calls sent w
    /\ forallb session_call sent = true.
Proof.
  intros o buffer w.
  destruct (upload_loop_sends E chunk size fd sid dest fuel o buffer w)
    as (sent & Hsent & Happends & _).
  exists sent. split; [done|]. by apply appends_are_session_calls.
Qed.

(** ** The two paths of [dropboxUpload] *)

Lemma dropboxUpload_single E fuel localPath dest w fd :
  files w !! localPath = Some fd ->
  (Z.of_nat (length fd) <= 150 * 1024 * 1024)%Z ->
  dropboxUpload E fuel localPath dest w
  = (match axios_post E (calls w) (FilesUpload (bearer E) (overwrite_args dest) fd) with
     | PostOk data => Ok data
     | PostFail msg => Throw msg
     end,
     add_calls [FilesUpload (bearer E) (overwrite_args dest) fd] w).
Proof.
  intros Hfile Hsize.
  unfold dropboxUpload, bind, statSync_size, readFileSync, post. rewrite Hfile.
  destruct (Z.leb_spec (Z.of_nat (length fd)) (150 * 1024 * 1024)) as [_|]; [|lia].
  rewrite Hfile.
  by destruct (axios_post E (calls w) _).
Qed.

(** Above the threshold the session is opened and the loop takes its one
    turn: the first [CHUNK] bytes of the file go out in an append at offset
    0, and the function returns. *)
Lemma dropboxUpload_chunked E fuel localPath dest w fd :
  files w !! localPath = Some fd ->
  (150 * 1024 * 1024 < Z.of_nat (length fd))%Z ->
  dropboxUpload E (S fuel) localPath dest w
  = match axios_post E (calls w) (SessionStart (bearer E) false) with
    | PostFail msg => (Throw msg, add_calls [SessionStart (bearer E) false] w)
    | PostOk started =>
        (match axios_post E (calls w ++ [SessionStart (bearer E) false])
                 (first_append E (get_field "session_id" started) CHUNK fd)
         with
         | PostOk _ =>
             Ok [("path_display", dest);
                 ("size", VNum (inject_Z (Z.of_nat (length fd))))]
         | PostFail msg => Throw msg
         end,
         add_calls
           [SessionStart (bearer E) false;
            first_append E (get_field "session_id" started) CHUNK fd] w)
    end.
Proof.
  intros Hfile Hsize. pose proof chunk_size as HC.
  unfold dropboxUpload, bind at 1, statSync_size. rewrite Hfile.
  destruct (Z.leb_spec (Z.of_nat (length fd)) (150 * 1024 * 1024)) as [|_]; [lia|].
  unfold bind at 1, post.
  destruct (axios_post E (calls w) (SessionStart (bearer E) false))
    as [msg|started]; [reflexivity|].
  unfold bind at 1, openSync, readFileSync.
  change (files (add_call _ w)) with (files w). rewrite Hfile.
  unfold bind at 1. rewrite upload_loop_turn by lia.
  rewrite Z.sub_0_r, Z.min_l by lia.
  rewrite readSync_fills by (rewrite ?length_replicate; lia).
  fold (first_append E (get_field "session_id" started) CHUNK fd).
  change (calls (add_call ?c w)) with (calls w ++ [c]).
  destruct (axios_post E _ (first_append _ _ _ _)) as [msg|data];
    unfold add_calls, add_call; cbn [files calls console uuids];
    by rewrite <- app_assoc.
Qed.

Lemma dropboxUpload_chunked_calls E fuel localPath dest w fd :
  files w !! localPath = Some fd ->
  (150 * 1024 * 1024 < Z.of_nat (length fd))%Z ->
  exists rest,
    calls (snd (dropboxUpload E fuel localPath dest w))
    = calls w ++ SessionStart (bearer E) false :: rest
    /\ forallb is_append rest = true
    /\ (length rest <= 1)%nat.
Proof.
  intros Hfile Hsize.
  unfold dropboxUpload, bind at 1, statSync_size. rewrite Hfile.
  destruct (Z.leb_spec (Z.of_nat (length fd)) (150 * 1024 * 1024)) as [|_]; [lia|].
  unfold bind at 1, post.
  destruct (axios_post E (calls w) (SessionStart (bearer E) false)) as [msg|started].
  { exists []. by split; [|split; [|cbn; lia]]. }
  unfold bind at 1, openSync, readFileSync.
  change (files (add_call _ w)) with (files w). rewrite Hfile.
  unfold bind at 1.
  destruct (upload_loop_sends E CHUNK (Z.of_nat (length fd)) fd
              (get_field "session_id" started) dest fuel (Some 0%Z)
              (replicate (Z.to_nat CHUNK) x00)
              (add_call (SessionStart (bearer E) false) w))
    as (sent & Hsent & Hall & Hone).
  exists sent. split; [|done].
  destruct (upload_loop _ _ _ _ _ _ _ _ _ _) as [[[]|msg|] w'];
    cbn [snd] in Hsent |- *; subst w'; cbn; by rewrite <- app_assoc.
Qed.

Lemma service_accepting token engine : accepting (Scenario.service token engine).
Proof. intros history c. eexists. reflexivity. Qed.

Lemma large_file_size : Z.of_nat (length Scenario.large_file) = 157286405%Z.
Proof. unfold Scenario.large_file. rewrite length_replicate. lia. Qed.


Lemma large_file_staged :
  files (Scenario.staged Scenario.large_file) !! "/tmp/merged.mp4"
  = Some Scenario.large_file.
Proof. apply lookup_singleton_eq. Qed.

(** The run of [dropboxUpload] on a file above the threshold when the
    provider accepts every call. *)
Lemma dropboxUpload_chunked_accepted E fuel localPath dest w fd :
  accepting E ->
  files w !! localPath = Some fd ->
  (150 * 1024 * 1024 < Z.of_nat (length fd))%Z ->
  (1 <= fuel)%nat ->
  exists started,
    axios_post E (calls w) (SessionStart (bearer E) false) = PostOk started
    /\ dropboxUpload E fuel localPath dest w
       = (Ok [("path_display", dest);
              ("size", VNum (inject_Z (Z.of_nat (length fd))))],
          add_calls
            [SessionStart (bearer E) false;
             first_append E (get_field "session_id" started) CHUNK fd] w).
Proof.
  intros Hacc Hfile Hsize Hfuel.
  destruct fuel as [|fuel]; [lia|].
  rewrite (dropboxUpload_chunked E fuel localPath dest w fd Hfile Hsize).
  destruct (Hacc (calls w) (SessionStart (bearer E) false)) as [started Hstarted].
  exists started. split; [done|]. rewrite Hstarted.
  by destruct (Hacc (calls w ++ [SessionStart (bearer E) false])
                 (first_append E (get_field "session_id" started) CHUNK fd))
    as [data ->].
Qed.

Lemma delivered_append auth cursor close body :
  delivered [SessionAppend auth cursor close body] = body.
Proof. cbn. apply app_nil_r. Qed.

Lemma delivered_start_append auth close c :
  delivered [SessionStart auth close; c] = delivered [c].
Proof. reflexivity. Qed.

Lemma first_append_length E sid fd :
  (CHUNK <= Z.of_nat (length fd))%Z ->
  sent_bytes [first_append E sid CHUNK fd] = CHUNK.
Proof.
  intros Hfit. unfold sent_bytes, first_append. rewrite delivered_append.
  apply slice_length; [done|by rewrite chunk_size|lia].
Qed.

(** C2.  A file of size S above 150 MiB is not uploaded by ceil(S/C) - 1
    append calls and one finish call that together carry S bytes.  The
    byte count destructured from the read is undefined, so the loop takes
    one turn: when the provider accepts every call, the start call is
    followed by exactly one append call, at cursor offset 0 and carrying
    the whole buffer of C = 8 MiB, and by no finish call; the upload
    nevertheless returns a result.  The chunk accounting asks for at least
    eighteen appends, and the bytes sent are C, fewer than S. *)
Theorem chunked_upload_sends_one_append E fuel localPath dest w fd :
  let size := Z.of_nat (length fd) in
  accepting E ->
  files w !! localPath = Some fd ->
  (150 * 1024 * 1024 < size)%Z ->
  (1 <= fuel)%nat ->
  exists result w' sent,
    dropboxUpload E fuel localPath dest w = (Ok result, w')
    /\ calls w' = calls w ++ SessionStart (bearer E) false :: sent
    /\ Z.of_nat (length (List.filter is_append sent)) = 1%Z
    /\ (18 <= ceil_div size CHUNK - 1)%Z
    /\ List.filter is_finish sent = []
    /\ (forall c cur, In c sent -> cursor_of c = Some cur -> offset cur = 0%Z)
    /\ sent_bytes sent = CHUNK
    /\ (sent_bytes sent < size)%Z.
Proof.
  intros size Hacc Hfile Hsize Hfuel. pose proof chunk_size as HC.
  destruct (dropboxUpload_chunked_accepted E fuel localPath dest w fd
              Hacc Hfile Hsize Hfuel) as (started & _ & Hrun).
  pose proof (large_file_chunks size Hsize) as Hchunks.
  pose proof (first_append_length E (get_field "session_id" started) fd
                ltac:(fold size; lia)) as Hsent.
  eexists _, _, [first_append E (get_field "session_id" started) CHUNK fd].
  split; [exact Hrun|]. split; [reflexivity|].
  split; [reflexivity|]. split; [lia|]. split; [reflexivity|].
  split; [|split; [exact Hsent|rewrite Hsent; lia]].
  intros c cur [<-|[]] [= <-]. reflexivity.
Qed.

Lemma chunked_upload_sends_one_append_witness :
  exists result w' sent,
    dropboxUpload Scenario.provider 19 "/tmp/merged.mp4" (VStr "/out.mp4")
      (Scenario.staged Scenario.large_file) = (Ok result, w')
    /\ calls w' = [] ++ SessionStart "Bearer token" false :: sent
    /\ Z.of_nat (length (List.filter is_append sent)) = 1%Z
    /\ (18 <= ceil_div 157286405 CHUNK - 1)%Z
    /\ List.filter is_finish sent = []
    /\ (forall c cur, In c sent -> cursor_of c = Some cur -> offset cur = 0%Z)
    /\ sent_bytes sent = CHUNK
    /\ (sent_bytes sent < 157286405)%Z.
Proof.
  rewrite <- large_file_size.
  apply (chunked_upload_sends_one_append Scenario.provider 19 "/tmp/merged.mp4"
           (VStr "/out.mp4") (Scenario.staged Scenario.large_file)
           Scenario.large_file).
  - apply service_accepting.
  - apply large_file_staged.
  - rewrite large_file_size. lia.
  - lia.
Defined.

(** C3.  The two paths do not deliver the same bytes.  At most 150 MiB,
    the body of the one upload call is the content of the file.  Above,
    when the provider accepts every call, the bodies sent are the first
    8 MiB of the file and nothing more, which is not the content, and no
    finish call commits them; the upload returns a result all the same. *)
Theorem chunked_upload_delivers_first_chunk E fuel localPath dest w fd :
  let size := Z.of_nat (length fd) in
  accepting E ->
  files w !! localPath = Some fd ->
  (1 <= fuel)%nat ->
  exists result w' sent,
    dropboxUpload E fuel localPath dest w = (Ok result, w')
    /\ calls w' = calls w ++ sent
    /\ ((size <= 150 * 1024 * 1024)%Z ->
        delivered sent = fd
        /\ exists args, sent = [FilesUpload (bearer E) args fd])
    /\ ((150 * 1024 * 1024 < size)%Z ->
        delivered sent = slice fd 0 CHUNK
        /\ delivered sent <> fd
        /\ existsb is_finish sent = false).
Proof.
  intros size Hacc Hfile Hfuel. pose proof chunk_size as HC.
  destruct (Z.le_gt_cases size (150 * 1024 * 1024)) as [Hsmall|Hlarge].
  - rewrite (dropboxUpload_single E fuel localPath dest w fd Hfile Hsmall).
    destruct (Hacc (calls w) (FilesUpload (bearer E) (overwrite_args dest) fd))
      as [data ->].
    eexists data, _, [FilesUpload (bearer E) (overwrite_args dest) fd].
    split; [reflexivity|]. split; [reflexivity|].
    split; [|intros ?; fold size in Hsmall; lia].
    intros _. split; [cbn; by rewrite app_nil_r|by eexists].
  - destruct (dropboxUpload_chunked_accepted E fuel localPath dest w fd
                Hacc Hfile Hlarge Hfuel) as (started & _ & Hrun).
    rewrite Hrun. eexists _, _, _.
    split; [reflexivity|]. split; [reflexivity|].
    split; [intros ?; lia|]. intros _.
    assert (Hfirst : delivered
                       [SessionStart (bearer E) false;
                        first_append E (get_field "session_id" started) CHUNK fd]
                     = slice fd 0 CHUNK).
    { rewrite delivered_start_append. apply delivered_append. }
    split; [exact Hfirst|]. split; [|reflexivity].
    intros Hsame. rewrite Hfirst in Hsame.
    pose proof (slice_length fd 0 CHUNK) as Hlen.
    rewrite Hsame in Hlen. fold size in Hlen. lia.
Qed.

Lemma chunked_upload_delivers_first_chunk_witness :
  exists result w' sent,
    dropboxUpload Scenario.provider 1 "/tmp/merged.mp4" (VStr "/out.mp4")
      (Scenario.staged Scenario.large_file) = (Ok result, w')
    /\ calls w' = [] ++ sent
    /\ delivered sent = slice Scenario.large_file 0 CHUNK
    /\ delivered sent <> Scenario.large_file
    /\ existsb is_finish sent = false.
Proof.
  destruct (chunked_upload_delivers_first_chunk Scenario.provider 1
              "/tmp/merged.mp4" (VStr "/out.mp4")
              (Scenario.staged Scenario.large_file) Scenario.large_file
              (service_accepting _ _) large_file_staged (le_n 1))
    as (result & w' & sent & Hrun & Hcalls & _ & Hlarge).
  exists result, w', sent. split; [exact Hrun|]. split; [exact Hcalls|].
  apply Hlarge. rewrite large_file_size. lia.
Defined.

(** C4.  The strategy follows the size with threshold 150 MiB, but above
    it the session protocol is not carried through.  At most 150 MiB: one
    upload call carrying the whole content, the destination path and
    overwrite mode.  Above: the first call opens a session, at most one
    append call follows, and no finish call is ever sent, whatever the
    provider answers, so nothing commits the session to the destination
    path. *)
Theorem chunked_upload_never_finishes E fuel localPath dest w fd :
  let size := Z.of_nat (length fd) in
  let sent := calls (snd (dropboxUpload E fuel localPath dest w)) in
  files w !! localPath = Some fd ->
  ((size <= 150 * 1024 * 1024)%Z ->
   sent = calls w
          ++ [FilesUpload (bearer E)
                {| arg_path := dest; arg_mode := "overwrite";
                   arg_autorename := false; arg_mute := false |} fd])
  /\ ((150 * 1024 * 1024 < size)%Z ->
      exists rest,
        sent = calls w ++ SessionStart (bearer E) false :: rest
        /\ forallb is_append rest = true
        /\ (length rest <= 1)%nat
        /\ existsb is_finish rest = false).
Proof.
  intros size sent Hfile. subst sent. split.
  - intros Hsmall.
    by rewrite (dropboxUpload_single E fuel localPath dest w fd Hfile Hsmall).
  - intros Hlarge.
    destruct (dropboxUpload_chunked_calls E fuel localPath dest w fd Hfile Hlarge)
      as (rest & Hrest & Hall & Hone).
    exists rest. split; [done|]. split; [done|]. split; [done|].
    by apply appends_are_not_finishes.
Qed.

Lemma chunked_upload_never_finishes_witness :
  exists rest,
    calls (snd (dropboxUpload Scenario.provider 19 "/tmp/merged.mp4"
                  (VStr "/out.mp4") (Scenario.staged Scenario.large_file)))
    = [] ++ SessionStart "Bearer token" false :: rest
    /\ forallb is_append rest = true
    /\ (length rest <= 1)%nat
    /\ existsb is_finish rest = false.
Proof.
  destruct (chunked_upload_never_finishes Scenario.provider 19 "/tmp/merged.mp4"
              (VStr "/out.mp4") (Scenario.staged Scenario.large_file)
              Scenario.large_file large_file_staged) as [_ Hlarge].
  apply Hlarge. rewrite large_file_size. lia.
Defined.

(** ** Validation at the head of the handler *)

(** C8.  While no credential is configured (the variable is unset or
    empty), every request to the endpoint is answered at once with the
    missing-credential error, and the world is as it was: no call left the
    process, nothing was fetched, merged or uploaded. *)
Theorem missing_token_rejects E fuel req w :
  DROPBOX_TOKEN E = None \/ DROPBOX_TOKEN E = Some "" ->
  merge_handler E fuel req w
  = (Ok (json 400 (ErrorBody "Server missing DROPBOX_ACCESS_TOKEN env var")), w).
Proof.
  intros Htoken.
  assert (Hmissing : token_missing E = true).
  { unfold token_missing. by destruct Htoken as [-> | ->]. }
  unfold merge_handler, bind, now, try_catch. by rewrite Hmissing.
Qed.

Lemma missing_token_rejects_witness :
  merge_handler (Scenario.service None Scenario.engine_ends) 1 Scenario.by_path
    Scenario.empty_world
  = (Ok (json 400 (ErrorBody "Server missing DROPBOX_ACCESS_TOKEN env var")),
     Scenario.empty_world).
Proof.
  apply (missing_token_rejects (Scenario.service None Scenario.engine_ends) 1
           Scenario.by_path Scenario.empty_world).
  left. reflexivity.
Defined.

Lemma js_or_falsy a b : falsy a -> falsy b -> truthy (js_or a b) = false.
Proof. unfold falsy, js_or. by intros -> ->. Qed.

(** C5.  A request without [out_path], or without both [audio_url] and
    [audio_path], or without both [video_url] and [video_path], is answered
    with status 400 and the world is as it was: no call, no staging file, no
    fetch.  With a credential configured, a request without [out_path] gets
    the [out_path] message whatever its audio and video fields hold: that
    check comes first. *)
Theorem invalid_request_rejects E fuel req w :
  falsy (out_path (body_of req))
  \/ (falsy (audio_url (body_of req)) /\ falsy (audio_path (body_of req)))
  \/ (falsy (video_url (body_of req)) /\ falsy (video_path (body_of req))) ->
  exists error,
    merge_handler E fuel req w = (Ok (json 400 (ErrorBody error)), w)
    /\ (token_missing E = false -> falsy (out_path (body_of req)) ->
        error = "Missing out_path (Dropbox destination path)").
Proof.
  intros Hinvalid.
  unfold merge_handler, bind, now, try_catch. fold (body_of req).
  destruct (token_missing E).
  { eexists. split; [reflexivity|]. discriminate. }
  destruct (truthy (out_path (body_of req))) eqn:Hout; cbn [negb].
  2: { eexists. split; [reflexivity|]. reflexivity. }
  assert (Hnot : ~ falsy (out_path (body_of req))) by (unfold falsy; congruence).
  destruct (truthy (js_or (audio_url (body_of req)) (audio_path (body_of req))))
    eqn:Haudio; cbn [negb].
  2: { eexists. split; [reflexivity|]. intros _ ?. tauto. }
  destruct (truthy (js_or (video_url (body_of req)) (video_path (body_of req))))
    eqn:Hvideo; cbn [negb].
  2: { eexists. split; [reflexivity|]. intros _ ?. tauto. }
  destruct Hinvalid as [?|[[Ha1 Ha2]|[Hv1 Hv2]]]; [tauto| |].
  - rewrite (js_or_falsy _ _ Ha1 Ha2) in Haudio. discriminate.
  - rewrite (js_or_falsy _ _ Hv1 Hv2) in Hvideo. discriminate.
Qed.

Lemma invalid_request_rejects_witness :
  exists error,
    merge_handler Scenario.provider 1 {| body := None |} Scenario.empty_world
    = (Ok (json 400 (ErrorBody error)), Scenario.empty_world)
    /\ (token_missing Scenario.provider = false -> falsy VUndef ->
        error = "Missing out_path (Dropbox destination path)").
Proof.
  apply (invalid_request_rejects Scenario.provider 1 {| body := None |}
           Scenario.empty_world).
  left. reflexivity.
Defined.


(** ** Shared links *)

Section SearchParams.
Import URLSearchParams.
Variables (name v : string).

Lemma getAll_without l : getAll name (without name l) = [].
Proof.
  unfold getAll, without. induction l as [|[k x] l IH]; [done|].
  cbn. destruct (String.eqb k name) eqn:Hk; cbn; [done|]. by rewrite Hk.
Qed.

Lemma without_without l : without name (without name l) = without name l.
Proof.
  unfold without. induction l as [|[k x] l IH]; [done|].
  cbn. destruct (String.eqb k name) eqn:Hk; cbn; [done|]. rewrite Hk. cbn.
  by rewrite IH.
Qed.

Lemma getAll_set l : getAll name (set name v l) = [v].
Proof.
  induction l as [|[k x] l IH]; cbn.
  - unfold getAll. cbn. by rewrite String.eqb_refl.
  - destruct (String.eqb k name) eqn:Hk.
    + unfold getAll. cbn. rewrite String.eqb_refl. cbn.
      f_equal. apply getAll_without.
    + unfold getAll in *. cbn. by rewrite Hk.
Qed.

Lemma without_cons k x l :
  without name ((k, x) :: l)
  = if String.eqb k name then without name l else (k, x) :: without name l.
Proof. unfold without. cbn. by destruct (String.eqb k name). Qed.

Lemma without_set l : without name (set name v l) = without name l.
Proof.
  induction l as [|[k x] l IH]; cbn [set].
  - by rewrite without_cons, String.eqb_refl.
  - destruct (String.eqb k name) eqn:Hk; rewrite !without_cons.
    + rewrite String.eqb_refl, Hk. apply without_without.
    + by rewrite Hk, IH.
Qed.

Lemma set_present l :
  has name l = true ->
  exists before old after,
    l = before ++ (name, old) :: after
    /\ has name before = false
    /\ set name v l = before ++ (name, v) :: without name after.
Proof.
  unfold has. induction l as [|[k x] l IH]; [done|].
  cbn. destruct (String.eqb k name) eqn:Hk; cbn.
  - intros _. apply String.eqb_eq in Hk as ->. by exists [], x, l.
  - intros Hhas. destruct (IH Hhas) as (before & old & after & -> & Hbefore & ->).
    exists ((k, x) :: before), old, after. cbn. by rewrite Hk.
Qed.

Lemma getAll_absent l : has name l = false -> getAll name l = [].
Proof.
  unfold has, getAll. induction l as [|[k x] l IH]; [done|].
  cbn. destruct (String.eqb k name); [done|]. exact IH.
Qed.

Lemma getAll_append l :
  has name l = false -> getAll name (append name v l) = [v].
Proof.
  intros Hhas. unfold append, getAll. rewrite List.filter_app, map_app.
  fold (getAll name l). rewrite (getAll_absent l Hhas).
  cbn. by rewrite String.eqb_refl.
Qed.

Lemma without_append l : without name (append name v l) = without name l.
Proof.
  unfold append, without. rewrite List.filter_app. cbn.
  rewrite String.eqb_refl. cbn. apply app_nil_r.
Qed.

End SearchParams.

Lemma dl_forced_sound sp :
  dl_forced sp
    (if URLSearchParams.has "dl" sp then URLSearchParams.set "dl" "1" sp
     else URLSearchParams.append "dl" "1" sp).
Proof.
  unfold dl_forced. destruct (URLSearchParams.has "dl" sp) eqn:Hhas.
  - split; [apply getAll_set|]. split; [apply without_set|].
    split; [discriminate|]. intros _. by apply set_present.
  - split; [by apply getAll_append|]. split; [apply without_append|].
    split; [reflexivity|]. discriminate.
Qed.

Lemma fetched_as_sound E d :
  fetched_as E d
    (if isDropboxSharedLink E d then toDirectDownload E d else d).
Proof.
  unfold isDropboxSharedLink, toDirectDownload.
  destruct (URL_parse E (String_ E d)) as [u|] eqn:Hparse.
  - fold (sharing_domain (hostname u)).
    destruct (sharing_domain (hostname u)) eqn:Hhost.
    + eapply fetched_rewritten; [exact Hparse|exact Hhost|apply dl_forced_sound].
    + apply fetched_unmodified. intros u' Hu'. congruence.
  - apply fetched_unmodified. intros u' Hu'. congruence.
Qed.

Lemma download_calls E directUrl ext w :
  truthy directUrl = true ->
  calls (snd ((if negb (truthy directUrl)
               then throw "Provide either url or dropboxPath"
               else
                 let directUrl :=
                   if isDropboxSharedLink E directUrl
                   then toDirectDownload E directUrl else directUrl in
                 outFile <~ tmpFile E ext ;;
                 log "download.start" ;;;
                 get_to_file E directUrl outFile ;;;
                 log "download.done" ;;;
                 ret outFile) w))
  = calls w
    ++ [HttpGet (if isDropboxSharedLink E directUrl
                 then toDirectDownload E directUrl else directUrl)].
Proof.
  intros ->. cbn [negb].
  set (target := if isDropboxSharedLink E directUrl then _ else _).
  unfold bind, tmpFile, log, get_to_file. cbn [calls next_uuid add_line].
  destruct (axios_get E (calls w) target) as [msg|received [msg|]]; reflexivity.
Qed.

(** C9.  The one download call of the fetcher goes to the reference as
    [fetched_as] words it: a URL whose hostname ends in [dropbox.com] or
    [db.tt] is fetched with its [dl] parameter forced to [1] (appended when
    absent, overwritten when present), any other reference is fetched as it
    is.  This holds for a URL given in the request and for a temporary link
    resolved from a path. *)
Theorem shared_links_fetched_direct E url dropboxPath ext w :
  let after := calls (snd (downloadToTemp E url dropboxPath ext w)) in
  (truthy url = true ->
   exists target,
     after = calls w ++ [HttpGet target] /\ fetched_as E url target)
  /\ (forall data,
        falsy url -> truthy dropboxPath = true -> token_missing E = false ->
        axios_post E (calls w) (GetTemporaryLink (bearer E) dropboxPath)
        = PostOk data ->
        truthy (get_field "link" data) = true ->
        exists target,
          after = calls w ++ [GetTemporaryLink (bearer E) dropboxPath;
                              HttpGet target]
          /\ fetched_as E (get_field "link" data) target).
Proof.
  intros after. subst after. split.
  - intros Hurl.
    exists (if isDropboxSharedLink E url then toDirectDownload E url else url).
    split; [|apply fetched_as_sound].
    unfold downloadToTemp.
    assert (with_default VNull url = url) as -> by (by destruct url).
    rewrite Hurl. cbn [negb andb]. unfold bind at 1, ret at 1.
    by apply download_calls.
  - intros data Hurl Hpath Htoken Hreply Hlink.
    exists (if isDropboxSharedLink E (get_field "link" data)
            then toDirectDownload E (get_field "link" data)
            else get_field "link" data).
    split; [|apply fetched_as_sound].
    unfold downloadToTemp.
    assert (truthy (with_default VNull url) = false) as ->
      by (by destruct url).
    assert (with_default VNull dropboxPath = dropboxPath) as ->
      by (by destruct dropboxPath).
    rewrite Hpath. cbn [negb andb].
    unfold bind at 1, dropboxTemporaryLinkByPath. rewrite Htoken.
    unfold bind at 1, post. rewrite Hreply. unfold ret at 1.
    rewrite download_calls by done.
    cbn [calls add_call]. by rewrite <- app_assoc.
Qed.

Lemma shared_links_fetched_direct_witness :
  exists target,
    calls (snd (downloadToTemp Scenario.provider (VStr Scenario.shared_link)
                  VUndef ".mp3" Scenario.empty_world))
    = [] ++ [HttpGet target]
    /\ fetched_as Scenario.provider (VStr Scenario.shared_link) target.
Proof.
  apply (proj1 (shared_links_fetched_direct Scenario.provider
                  (VStr Scenario.shared_link) VUndef ".mp3"
                  Scenario.empty_world)).
  reflexivity.
Defined.

Example shared_link_example :
  calls (snd (downloadToTemp Scenario.provider (VStr Scenario.shared_link)
                VUndef ".mp3" Scenario.empty_world))
  = [HttpGet (VStr "https://www.dropbox.com/s/abc/voice.mp3?dl=1")]
  /\ calls (snd (downloadToTemp Scenario.provider (VStr Scenario.plain_link)
                   VUndef ".mp4" Scenario.empty_world))
     = [HttpGet (VStr "https://cdn.example/clip.mp4")].
Proof. split; vm_compute; reflexivity. Qed.

(** ** What a computation sends out *)

Section Emits.
Variable E : Env.
Variable P : call -> Prop.

Lemma emits_silent {A} (m : M A) :
  (forall w, calls (snd (m w)) = calls w) -> emits P m.
Proof. intros Hm w. exists []. by rewrite Hm, app_nil_r. Qed.

Lemma emits_ret {A} (a : A) : emits P (ret a).
Proof. by apply emits_silent. Qed.

Lemma emits_throw {A} msg : emits P (@throw A msg).
Proof. by apply emits_silent. Qed.

Lemma emits_bind {A B} (m : M A) (k : A -> M B) :
  emits P m -> (forall a, emits P (k a)) -> emits P (bind m k).
Proof.
  intros Hm Hk w. unfold bind.
  destruct (Hm w) as (sent1 & Hsent1 & Hall1).
  destruct (m w) as [[a|msg|] w1]; cbn [snd] in *; [|by exists sent1..].
  destruct (Hk a w1) as (sent2 & Hsent2 & Hall2).
  exists (sent1 ++ sent2). split.
  - by rewrite Hsent2, Hsent1, app_assoc.
  - by apply Forall_app.
Qed.

Lemma emits_try_catch {A} (m : M A) (h : string -> M A) :
  emits P m -> (forall msg, emits P (h msg)) -> emits P (try_catch m h).
Proof.
  intros Hm Hh w. unfold try_catch.
  destruct (Hm w) as (sent1 & Hsent1 & Hall1).
  destruct (m w) as [[a|msg|] w1]; cbn [snd] in *; [by exists sent1| |by exists sent1].
  destruct (Hh msg w1) as (sent2 & Hsent2 & Hall2).
  exists (sent1 ++ sent2). split.
  - by rewrite Hsent2, Hsent1, app_assoc.
  - by apply Forall_app.
Qed.

Lemma emits_post c : P c -> emits P (post E c).
Proof.
  intros Hc w. exists [c]. unfold post.
  split; [by destruct (axios_post E (calls w) c)|]. by constructor.
Qed.

Lemma emits_log step : emits P (log step).
Proof. by apply emits_silent. Qed.

Lemma emits_tmpFile suffix : emits P (tmpFile E suffix).
Proof. by apply emits_silent. Qed.

Lemma emits_now : emits P (now E).
Proof. by apply emits_silent. Qed.

Lemma emits_statSync_size p : emits P (statSync_size p).
Proof.
  apply emits_silent. intros w. unfold statSync_size. by destruct (files w !! p).
Qed.

Lemma emits_readFileSync p : emits P (readFileSync p).
Proof.
  apply emits_silent. intros w. unfold readFileSync. by destruct (files w !! p).
Qed.

Lemma emits_unlink_quietly p : emits P (unlink_quietly p).
Proof.
  apply emits_silent. intros w. unfold unlink_quietly, try_catch, unlinkSync.
  by destruct (files w !! p).
Qed.

Lemma emits_for_each {A} (l : list A) (f : A -> M unit) :
  (forall x, emits P (f x)) -> emits P (for_each l f).
Proof.
  intros Hf. induction l as [|x l IH]; cbn [for_each].
  - apply emits_ret.
  - apply emits_bind; [apply Hf|]. intros _. exact IH.
Qed.

Lemma emits_get_to_file url outFile :
  P (HttpGet url) -> emits P (get_to_file E url outFile).
Proof.
  intros Hget w. exists [HttpGet url]. unfold get_to_file.
  split; [|by constructor].
  by destruct (axios_get E (calls w) url) as [msg|received [msg|]].
Qed.

Lemma calls_progress_lines n w :
  calls (Nat.iter n (add_line "ffmpeg.progress") w) = calls w.
Proof. induction n as [|n IH]; [done|]. cbn. exact IH. Qed.

Lemma emits_save cmd outTmp :
  P (FfmpegSave cmd outTmp) -> emits P (save E cmd outTmp).
Proof.
  intros Hrun w. exists [FfmpegSave cmd outTmp]. unfold save.
  split; [|by constructor].
  destruct (ffmpeg_run E (calls w) cmd outTmp) as [started progress written terminal].
  cbn [ff_written ff_started ff_progress ff_terminal_event].
  destruct terminal; cbn [snd add_line calls]; rewrite calls_progress_lines;
    by destruct started, written.
Qed.

Hypothesis P_http : forall c, (forall cmd out, c <> FfmpegSave cmd out) -> P c.

Lemma emits_upload_loop chunk size fd sid dest fuel : forall o buffer,
  emits P (upload_loop E fuel chunk size fd sid dest o buffer).
Proof.
  induction fuel as [|fuel IH]; intros o buffer; cbn [upload_loop].
  - destruct o as [o|]; [destruct (o <? size)%Z|]; by apply emits_silent.
  - destruct o as [o|]; [|apply emits_ret].
    destruct (o <? size)%Z; [|apply emits_ret].
    destruct (readSync fd buffer (Z.min chunk (size - o)) o) as [returned buffer'].
    apply emits_bind; [|intros _; apply IH].
    destruct (negb _); apply emits_post; by apply P_http.
Qed.

Lemma emits_dropboxUpload fuel localPath dest :
  emits P (dropboxUpload E fuel localPath dest).
Proof.
  unfold dropboxUpload. apply emits_bind; [apply emits_statSync_size|].
  intros size. destruct (size <=? _)%Z.
  - apply emits_bind; [apply emits_readFileSync|]. intros content.
    apply emits_bind; [apply emits_post; by apply P_http|]. intros data.
    apply emits_ret.
  - apply emits_bind; [apply emits_post; by apply P_http|]. intros started.
    apply emits_bind; [apply emits_readFileSync|]. intros fd.
    apply emits_bind; [apply emits_upload_loop|]. intros _. apply emits_ret.
Qed.

Lemma emits_downloadToTemp url dropboxPath ext :
  emits P (downloadToTemp E url dropboxPath ext).
Proof.
  unfold downloadToTemp. apply emits_bind.
  - destruct (_ && _); [|apply emits_ret].
    unfold dropboxTemporaryLinkByPath. destruct (token_missing E).
    + apply emits_throw.
    + apply emits_bind; [apply emits_post; by apply P_http|]. intros data.
      apply emits_ret.
  - intros directUrl. destruct (negb _); [apply emits_throw|].
    apply emits_bind; [apply emits_tmpFile|]. intros outFile.
    apply emits_bind; [apply emits_log|]. intros _.
    apply emits_bind; [apply emits_get_to_file; by apply P_http|]. intros _.
    apply emits_bind; [apply emits_log|]. intros _. apply emits_ret.
Qed.

End Emits.

(** The command of every engine run the handler starts is built by
    [merge_command] from the request fields with their defaults. *)
Lemma merge_handler_engine_runs E fuel req :
  emits
    (on_engine_runs (fun cmd =>
       exists videoTmp audioTmp,
         cmd = merge_command E videoTmp audioTmp
                 (with_default (VNum 0) (audio_offset_sec (body_of req)))
                 (with_default (VBool true) (trim_to_shortest (body_of req)))
                 (with_default (VBool false) (reencode_video (body_of req)))
                 (with_default (VStr "192k") (audio_bitrate (body_of req)))))
    (merge_handler E fuel req).
Proof.
  set (P := on_engine_runs _).
  assert (P_http : forall c, (forall cmd out, c <> FfmpegSave cmd out) -> P c).
  { intros [] Hc; try exact I. by destruct (Hc cmd output). }
  unfold merge_handler.
  apply emits_bind; [apply emits_now|]. intros start.
  apply emits_try_catch.
  2: { intros msg. apply emits_bind; [apply emits_log|]. intros _. apply emits_ret. }
  destruct (token_missing E); [apply emits_ret|].
  destruct (negb _); [apply emits_ret|].
  destruct (negb _); [apply emits_ret|].
  destruct (negb _); [apply emits_ret|].
  apply emits_bind; [by apply emits_downloadToTemp|]. intros audioTmp.
  apply emits_bind; [by apply emits_downloadToTemp|]. intros videoTmp.
  apply emits_bind; [apply emits_tmpFile|]. intros outTmp.
  apply emits_bind; [apply emits_save; by exists videoTmp, audioTmp|]. intros _.
  apply emits_bind; [by apply emits_dropboxUpload|]. intros uploaded.
  apply emits_bind; [apply emits_for_each; intros; apply emits_unlink_quietly|].
  intros _. apply emits_bind; [apply emits_now|]. intros finish. apply emits_ret.
Qed.

Lemma bind_Ok {A B} (m : M A) (k : A -> M B) w b w' :
  bind m k w = (Ok b, w') ->
  exists a w1, m w = (Ok a, w1) /\ k a w1 = (Ok b, w').
Proof.
  unfold bind. destruct (m w) as [[a|msg|] w1]; [|discriminate..].
  intros Hk. by exists a, w1.
Qed.


(** ** What the caller gets back *)



(** ** The command handed to the engine *)

Lemma merge_command_output_directives E videoTmp audioTmp offset trim reencode
    bitrate :
  output_directives
    (merge_command E videoTmp audioTmp offset trim reencode bitrate)
  = (if truthy trim then [OutputOptions ["-shortest"]] else [])
    ++ (if truthy reencode then
          [VideoCodec "libx264";
           OutputOptions ["-preset"; "veryfast"; "-movflags"; "+faststart"]]
        else [OutputOptions ["-c:v"; "copy"]])
    ++ [AudioCodec "aac"; AudioBitrate bitrate].
Proof.
  unfold merge_command.
  destruct (strict_ne_zero offset), (gt_zero E offset), (truthy trim),
    (truthy reencode); reflexivity.
Qed.

(** C7.  For every engine run the handler starts, the directives of the
    command that are not about inputs are: [-shortest] when trimming is
    on; then [libx264] with [-preset veryfast -movflags +faststart] when
    [reencode_video] holds, and [-c:v copy] otherwise; then the audio codec
    [aac] and the requested [audio_bitrate] (["192k"] when the request names
    none). *)
Theorem codec_directives E fuel req w sent cmd outTmp :
  calls (snd (merge_handler E fuel req w)) = calls w ++ sent ->
  In (FfmpegSave cmd outTmp) sent ->
  output_directives cmd
  = (if truthy (with_default (VBool true) (trim_to_shortest (body_of req)))
     then [OutputOptions ["-shortest"]] else [])
    ++ (if truthy (with_default (VBool false) (reencode_video (body_of req)))
        then [VideoCodec "libx264";
              OutputOptions ["-preset"; "veryfast"; "-movflags"; "+faststart"]]
        else [OutputOptions ["-c:v"; "copy"]])
    ++ [AudioCodec "aac";
        AudioBitrate (with_default (VStr "192k") (audio_bitrate (body_of req)))].
Proof.
  intros Hsent Hin.
  destruct (merge_handler_engine_runs E fuel req w) as (sent' & Hsent' & Hall).
  rewrite Hsent in Hsent'. apply app_inv_head in Hsent'. subst sent'.
  rewrite Forall_forall in Hall.
  destruct (Hall _ (proj2 (list_elem_of_In _ _) Hin)) as (videoTmp & audioTmp & ->).
  apply merge_command_output_directives.
Qed.

Lemma codec_directives_witness :
  output_directives
    (merge_command Scenario.provider "/tmp/staged-1.mp4" "/tmp/staged-0.mp3"
       (VNum 0) (VBool true) (VBool false) (VStr "192k"))
  = [OutputOptions ["-shortest"]; OutputOptions ["-c:v"; "copy"];
     AudioCodec "aac"; AudioBitrate (VStr "192k")].
Proof.
  assert (Hsent :
    calls (snd (merge_handler Scenario.provider 1 Scenario.by_path
                  Scenario.empty_world))
    = calls Scenario.empty_world
      ++ [GetTemporaryLink "Bearer token" (VStr "/a.mp3");
          HttpGet (VStr "https://cdn.example/clip.mp4");
          GetTemporaryLink "Bearer token" (VStr "/b.mp4");
          HttpGet (VStr "https://cdn.example/clip.mp4");
          FfmpegSave
            (merge_command Scenario.provider "/tmp/staged-1.mp4"
               "/tmp/staged-0.mp3" (VNum 0) (VBool true) (VBool false)
               (VStr "192k"))
            "/tmp/staged-2.mp4";
          FilesUpload "Bearer token" (overwrite_args (VStr "/out.mp4"))
            [x0a; x0b]]).
  { vm_compute. reflexivity. }
  apply (codec_directives Scenario.provider 1 Scenario.by_path
           Scenario.empty_world _ _ "/tmp/staged-2.mp4" Hsent).
  do 4 right. left. reflexivity.
Defined.

(** The inputs fluent-ffmpeg declares for a numeric offset: the video, the
    audio, and for an offset other than zero a third input; the offset
    directive is among the options of the second input. *)
Lemma declared_inputs_by_offset E videoTmp audioTmp q trim reencode bitrate :
  declared_inputs
    (merge_command E videoTmp audioTmp (VNum q) trim reencode bitrate)
  = Some
      (if Qeq_bool q 0 then
         [ {| source := videoTmp; options := [] |};
           {| source := audioTmp; options := [] |} ]
       else if Qle_bool q 0 then
         [ {| source := videoTmp; options := [] |};
           {| source := audioTmp;
              options := ["-itsoffset"; Number_toString E (- q)%Q] |};
           {| source := videoTmp; options := [] |} ]
       else
         [ {| source := videoTmp; options := [] |};
           {| source := audioTmp;
              options := ["-itsoffset"; Number_toString E q] |};
           {| source := audioTmp; options := [] |} ]).
Proof.
  unfold merge_command, strict_ne_zero, gt_zero, String_neg, ToNumber, String_.
  destruct (Qeq_bool q 0), (Qle_bool q 0), (truthy trim), (truthy reencode);
    reflexivity.
Qed.

(** C6.  With [audio_offset_sec] at -2 the inputs fluent-ffmpeg declares
    are the video, the audio carrying [-itsoffset 2], and a second plain
    video; at 2 they are the video, the audio carrying [-itsoffset 2], and a
    second plain audio.  The directive is on the second of the two original
    inputs both times and the third input carries none; the last part runs
    the handler on the request with offset -2 and reads the arguments off
    the command it hands to the engine. *)
Theorem offset_directive_lands_on_second_input :
  (forall E videoTmp audioTmp trim reencode bitrate,
     declared_inputs
       (merge_command E videoTmp audioTmp (VNum (-2)) trim reencode bitrate)
     = Some [ {| source := videoTmp; options := [] |};
              {| source := audioTmp;
                 options := ["-itsoffset"; Number_toString E 2] |};
              {| source := videoTmp; options := [] |} ]
     /\ declared_inputs
          (merge_command E videoTmp audioTmp (VNum 2) trim reencode bitrate)
        = Some [ {| source := videoTmp; options := [] |};
                 {| source := audioTmp;
                    options := ["-itsoffset"; Number_toString E 2] |};
                 {| source := audioTmp; options := [] |} ])
  /\ exists cmd,
       In (FfmpegSave cmd "/tmp/staged-2.mp4")
          (calls (snd (merge_handler Scenario.provider 1 Scenario.delayed_video
                         Scenario.empty_world)))
       /\ option_map input_arguments (declared_inputs cmd)
          = Some ["-i"; "/tmp/staged-1.mp4";
                  "-itsoffset"; "2"; "-i"; "/tmp/staged-0.mp3";
                  "-i"; "/tmp/staged-1.mp4"].
Proof.
  split.
  - intros E videoTmp audioTmp trim reencode bitrate.
    split; apply (declared_inputs_by_offset E videoTmp audioTmp).
  - eexists. split.
    + vm_compute. do 4 right. left. reflexivity.
    + vm_compute. reflexivity.
Qed.

(** ** Staging files at the end of an invocation *)

(** C1.  The handler run on a request by paths.  When the engine reports
    an error the answer is the 500 with the engine's message and both
    staged inputs are still in the file system; when the provider refuses
    the upload all three staged files are still there; when everything
    succeeds the staging area is empty again. *)
Theorem staged_files_left_after_failure :
  let merge_failed :=
    merge_handler Scenario.failing_engine 1 Scenario.by_path
      Scenario.empty_world in
  let upload_failed :=
    merge_handler Scenario.refusing_upload 1 Scenario.by_path
      Scenario.empty_world in
  let succeeded :=
    merge_handler Scenario.provider 1 Scenario.by_path Scenario.empty_world in
  (fst merge_failed = Ok (json 500 (ErrorBody "ffmpeg exited with code 1"))
   /\ files (snd merge_failed) !! "/tmp/staged-0.mp3" = Some [x01; x02; x03]
   /\ files (snd merge_failed) !! "/tmp/staged-1.mp4" = Some [x01; x02; x03])
  /\ (fst upload_failed
      = Ok (json 500 (ErrorBody "Request failed with status code 507"))
      /\ files (snd upload_failed) !! "/tmp/staged-0.mp3" = Some [x01; x02; x03]
      /\ files (snd upload_failed) !! "/tmp/staged-1.mp4" = Some [x01; x02; x03]
      /\ files (snd upload_failed) !! "/tmp/staged-2.mp4" = Some [x0a; x0b])
  /\ (exists uploaded elapsed,
        fst succeeded
        = Ok (json 200 (MergedBody (VStr "/out.mp4") uploaded elapsed))
        /\ files (snd succeeded) = ∅).
Proof.
  vm_compute. repeat split. eexists _, _. split; reflexivity.
Qed.

(** * Further properties *)

(** ** The upload: what it leaves alone, when it stops *)

Lemma snd_add_calls_bind {A B} (m : M A) (k : A -> M B) w :
  (exists sent, snd (m w) = add_calls sent w) ->
  (forall a w1, exists sent, snd (k a w1) = add_calls sent w1) ->
  exists sent, snd (bind m k w) = add_calls sent w.
Proof.
  intros (sent1 & Hm) Hk. unfold bind.
  destruct (m w) as [[a|msg|] w1]; cbn [snd] in *; [|by exists sent1..].
  destruct (Hk a w1) as (sent2 & ->). subst w1.
  exists (sent1 ++ sent2). apply add_calls_app.
Qed.

Lemma dropboxUpload_frame E fuel localPath dest w :
  exists sent,
    snd (dropboxUpload E fuel localPath dest w) = add_calls sent w.
Proof.
  assert (Hpost : forall c w1, exists sent, snd (post E c w1) = add_calls sent w1).
  { intros c w1. exists [c]. unfold post. by destruct (axios_post E (calls w1) c). }
  assert (Hread : forall p w1, exists sent, snd (readFileSync p w1) = add_calls sent w1).
  { intros p w1. exists []. rewrite add_calls_nil. unfold readFileSync.
    by destruct (files w1 !! p). }
  assert (Hret : forall (a : jsobj) w1, exists sent, snd (ret a w1) = add_calls sent w1).
  { intros a w1. exists []. by rewrite add_calls_nil. }
  unfold dropboxUpload. apply snd_add_calls_bind.
  { exists []. rewrite add_calls_nil. unfold statSync_size.
    by destruct (files w !! localPath). }
  intros size w1. destruct (size <=? _)%Z.
  - apply snd_add_calls_bind; [apply Hread|]. intros content w2.
    apply snd_add_calls_bind; [apply Hpost|]. intros data w3. apply Hret.
  - apply snd_add_calls_bind; [apply Hpost|]. intros started w2.
    apply snd_add_calls_bind; [apply Hread|]. intros fd w3.
    apply snd_add_calls_bind; [|intros; apply Hret].
    destruct (upload_loop_calls E CHUNK size fd (get_field "session_id" started)
                dest fuel (Some 0%Z) (replicate (Z.to_nat CHUNK) x00) w3)
      as (sent & Hsent & _).
    by exists sent.
Qed.

(** X4.  [dropboxUpload] changes nothing in the world but the history of
    calls, whatever the outcome: the local file and every other file, the
    console and the identifier counter are as before.  When the local file
    does not exist it throws at once and sends nothing. *)
Theorem dropboxUpload_only_sends E fuel localPath dest w :
  (exists sent,
     snd (dropboxUpload E fuel localPath dest w) = add_calls sent w)
  /\ (files w !! localPath = None ->
      dropboxUpload E fuel localPath dest w
      = (Throw "ENOENT: no such file or directory", w)).
Proof.
  split; [apply dropboxUpload_frame|].
  intros Hfile. unfold dropboxUpload, bind, statSync_size. by rewrite Hfile.
Qed.



Lemma accepted_run_app E h sent1 sent2 :
  accepted_run E h sent1 ->
  accepted_run E (h ++ sent1) sent2 ->
  accepted_run E h (sent1 ++ sent2).
Proof.
  intros H1 H2 i c Hc.
  destruct (decide (i < length sent1)%nat) as [Hlt|Hge].
  - rewrite lookup_app_l in Hc by done.
    destruct (H1 i c Hc) as (data & Hdata). exists data.
    by rewrite take_app_le by lia.
  - rewrite lookup_app_r in Hc by lia.
    destruct (H2 _ c Hc) as (data & Hdata). exists data.
    rewrite take_app_ge by lia. by rewrite app_assoc.
Qed.





Lemma dropboxUpload_chunked_rest E fuel localPath dest w fd :
  files w !! localPath = Some fd ->
  (150 * 1024 * 1024 < Z.of_nat (length fd))%Z ->
  exists rest,
    calls (snd (dropboxUpload E fuel localPath dest w))
    = calls w ++ SessionStart (bearer E) false :: rest
    /\ match axios_post E (calls w) (SessionStart (bearer E) false) with
       | PostOk started =>
           rest = []
           \/ rest = [first_append E (get_field "session_id" started) CHUNK fd]
       | PostFail _ => rest = []
       end.
Proof.
  intros Hfile Hlarge. destruct fuel as [|fuel].
  - unfold dropboxUpload, bind at 1, statSync_size. rewrite Hfile.
    destruct (Z.leb_spec (Z.of_nat (length fd)) (150 * 1024 * 1024)) as [|_]; [lia|].
    unfold bind at 1, post.
    destruct (axios_post E (calls w) (SessionStart (bearer E) false))
      as [msg|started]; [by exists []|].
    unfold bind at 1, openSync, readFileSync.
    change (files (add_call _ w)) with (files w). rewrite Hfile.
    unfold bind at 1. cbn [upload_loop].
    exists []. split; [|by left].
    by destruct (0 <? Z.of_nat (length fd))%Z.
  - rewrite (dropboxUpload_chunked E fuel localPath dest w fd Hfile Hlarge).
    destruct (axios_post E (calls w) (SessionStart (bearer E) false))
      as [msg|started]; [by exists []|].
    eexists [_]. split; [|by right].
    by destruct (axios_post E _ (first_append _ _ _ _)).
Qed.

Lemma first_append_chunk E sid fd :
  (CHUNK <= Z.of_nat (length fd))%Z ->
  chunk_of fd CHUNK sid (first_append E sid CHUNK fd).
Proof.
  intros Hfit. pose proof chunk_size as HC.
  pose proof (slice_length fd 0 CHUNK ltac:(done) ltac:(lia) ltac:(lia)) as Hlen.
  exists {| session_id := sid; offset := 0 |}.
  unfold first_append. cbn [cursor_of sent_body session_id offset is_append].
  rewrite Hlen. repeat split; try done; lia.
Qed.

(** X3.  On the chunked path, whatever the provider answers, the calls
    after the session start are pieces of the file: each names the session
    id of the start reply, carries the bytes of the file at its cursor
    offset, between 1 byte and 8 MiB of them (8 MiB exactly for an append),
    and never reaches past the end of the file.  When the start call is
    rejected nothing follows it. *)
Theorem session_calls_are_file_chunks E fuel localPath dest w fd :
  files w !! localPath = Some fd ->
  (150 * 1024 * 1024 < Z.of_nat (length fd))%Z ->
  exists rest,
    calls (snd (dropboxUpload E fuel localPath dest w))
    = calls w ++ SessionStart (bearer E) false :: rest
    /\ match axios_post E (calls w) (SessionStart (bearer E) false) with
       | PostOk started =>
           Forall (chunk_of fd CHUNK (get_field "session_id" started)) rest
       | PostFail _ => rest = []
       end.
Proof.
  intros Hfile Hlarge.
  destruct (dropboxUpload_chunked_rest E fuel localPath dest w fd Hfile Hlarge)
    as (rest & Hcalls & Hrest).
  exists rest. split; [exact Hcalls|].
  destruct (axios_post E (calls w) (SessionStart (bearer E) false))
    as [msg|started]; [exact Hrest|].
  destruct Hrest as [->| ->]; [constructor|].
  constructor; [|constructor].
  apply first_append_chunk. pose proof chunk_size. lia.
Qed.

Lemma session_calls_are_file_chunks_witness :
  exists rest,
    calls (snd (dropboxUpload Scenario.provider 19 "/tmp/merged.mp4"
                  (VStr "/out.mp4") (Scenario.staged Scenario.large_file)))
    = [] ++ SessionStart "Bearer token" false :: rest
    /\ Forall (chunk_of Scenario.large_file CHUNK (VStr "session-1")) rest.
Proof.
  apply (session_calls_are_file_chunks Scenario.provider 19 "/tmp/merged.mp4"
           (VStr "/out.mp4") (Scenario.staged Scenario.large_file)
           Scenario.large_file large_file_staged).
  rewrite large_file_size. lia.
Defined.

(** ** The fetcher: what is left behind *)

Lemma download_outcome E directUrl ext w :
  truthy directUrl = true ->
  let target := if isDropboxSharedLink E directUrl
                then toDirectDownload E directUrl else directUrl in
  let outFile := staging_name E (uuids w) ext in
  let run := (if negb (truthy directUrl)
              then throw "Provide either url or dropboxPath"
              else
                let directUrl :=
                  if isDropboxSharedLink E directUrl
                  then toDirectDownload E directUrl else directUrl in
                outFile <~ tmpFile E ext ;;
                log "download.start" ;;;
                get_to_file E directUrl outFile ;;;
                log "download.done" ;;;
                ret outFile) w in
  uuids (snd run) = S (uuids w)
  /\ match axios_get E (calls w) target with
     | GetFail msg => fst run = Throw msg /\ files (snd run) = files w
     | GetStream received None =>
         fst run = Ok outFile
         /\ files (snd run) = <[outFile := received]> (files w)
     | GetStream received (Some msg) =>
         fst run = Throw msg
         /\ files (snd run) = <[outFile := received]> (files w)
     end.
Proof.
  intros Hurl target outFile run. subst run. rewrite Hurl. cbn [negb].
  fold target. unfold bind, tmpFile, log, get_to_file.
  cbn [calls next_uuid add_line]. fold (staging_name E (uuids w) ext).
  fold outFile.
  destruct (axios_get E (calls w) target) as [msg|received [msg|]]; by split.
Qed.

(** X5.  What a fetch with a usable URL leaves behind.  It draws one
    staging name.  A rejected request throws and creates no file; a stream
    that ends returns the staging name and the file holds what was
    received; a stream that breaks throws and the partly written file
    stays. *)
Theorem download_leaves_what_arrived E url dropboxPath ext w :
  truthy url = true ->
  exists target,
    fetched_as E url target
    /\ uuids (snd (downloadToTemp E url dropboxPath ext w)) = S (uuids w)
    /\ match axios_get E (calls w) target with
       | GetFail msg =>
           fst (downloadToTemp E url dropboxPath ext w) = Throw msg
           /\ files (snd (downloadToTemp E url dropboxPath ext w)) = files w
       | GetStream received None =>
           fst (downloadToTemp E url dropboxPath ext w)
           = Ok (staging_name E (uuids w) ext)
           /\ files (snd (downloadToTemp E url dropboxPath ext w))
              = <[staging_name E (uuids w) ext := received]> (files w)
       | GetStream received (Some msg) =>
           fst (downloadToTemp E url dropboxPath ext w) = Throw msg
           /\ files (snd (downloadToTemp E url dropboxPath ext w))
              = <[staging_name E (uuids w) ext := received]> (files w)
       end.
Proof.
  intros Hurl.
  exists (if isDropboxSharedLink E url then toDirectDownload E url else url).
  split; [apply fetched_as_sound|].
  unfold downloadToTemp.
  assert (with_default VNull url = url) as -> by (by destruct url).
  rewrite Hurl. cbn [negb andb]. unfold bind at 1 3 5 7 9 11 13, ret at 1 3 5 7 9 11 13.
  exact (download_outcome E url ext w Hurl).
Qed.

Lemma download_leaves_what_arrived_witness :
  exists target,
    fetched_as Scenario.provider (VStr Scenario.plain_link) target
    /\ uuids (snd (downloadToTemp Scenario.provider (VStr Scenario.plain_link)
                     VUndef ".mp4" Scenario.empty_world)) = 1%nat
    /\ match axios_get Scenario.provider [] target with
       | GetFail msg =>
           fst (downloadToTemp Scenario.provider (VStr Scenario.plain_link)
                  VUndef ".mp4" Scenario.empty_world) = Throw msg
           /\ files (snd (downloadToTemp Scenario.provider
                            (VStr Scenario.plain_link) VUndef ".mp4"
                            Scenario.empty_world)) = ∅
       | GetStream received None =>
           fst (downloadToTemp Scenario.provider (VStr Scenario.plain_link)
                  VUndef ".mp4" Scenario.empty_world)
           = Ok "/tmp/staged-0.mp4"
           /\ files (snd (downloadToTemp Scenario.provider
                            (VStr Scenario.plain_link) VUndef ".mp4"
                            Scenario.empty_world))
              = <["/tmp/staged-0.mp4" := received]> ∅
       | GetStream received (Some msg) =>
           fst (downloadToTemp Scenario.provider (VStr Scenario.plain_link)
                  VUndef ".mp4" Scenario.empty_world) = Throw msg
           /\ files (snd (downloadToTemp Scenario.provider
                            (VStr Scenario.plain_link) VUndef ".mp4"
                            Scenario.empty_world))
              = <["/tmp/staged-0.mp4" := received]> ∅
       end.
Proof.
  apply (download_leaves_what_arrived Scenario.provider
           (VStr Scenario.plain_link) VUndef ".mp4" Scenario.empty_world).
  reflexivity.
Defined.

(** X6.  A fetch without a URL never allocates a staging name or a file.
    Without a path either it throws [Provide either url or dropboxPath]
    with nothing done; with a path but no credential it throws the
    missing-credential error with nothing done; with a path and a
    credential it makes the one temporary-link call, and throws the
    provider's error when that is rejected, or [Provide either url or
    dropboxPath] when the reply holds no usable [link]. *)
Theorem download_without_reference E url dropboxPath ext w :
  falsy url ->
  let run := downloadToTemp E url dropboxPath ext w in
  (falsy dropboxPath ->
   run = (Throw "Provide either url or dropboxPath", w))
  /\ (truthy dropboxPath = true -> token_missing E = true ->
      run = (Throw "Missing DROPBOX_ACCESS_TOKEN env var", w))
  /\ (truthy dropboxPath = true -> token_missing E = false ->
      match axios_post E (calls w) (GetTemporaryLink (bearer E) dropboxPath) with
      | PostFail msg =>
          run = (Throw msg, add_calls [GetTemporaryLink (bearer E) dropboxPath] w)
      | PostOk data =>
          falsy (get_field "link" data) ->
          run = (Throw "Provide either url or dropboxPath",
                 add_calls [GetTemporaryLink (bearer E) dropboxPath] w)
      end).
Proof.
  intros Hurl run. subst run. unfold downloadToTemp.
  assert (truthy (with_default VNull url) = false) as -> by (by destruct url).
  cbn [negb andb]. split; [|split].
  - intros Hpath.
    assert (truthy (with_default VNull dropboxPath) = false) as ->
      by (by destruct dropboxPath).
    unfold bind, ret.
    assert (truthy (with_default VNull url) = false) as -> by (by destruct url).
    reflexivity.
  - intros Hpath Htoken.
    assert (with_default VNull dropboxPath = dropboxPath) as ->
      by (by destruct dropboxPath).
    rewrite Hpath. unfold bind at 1, dropboxTemporaryLinkByPath.
    by rewrite Htoken.
  - intros Hpath Htoken.
    assert (with_default VNull dropboxPath = dropboxPath) as ->
      by (by destruct dropboxPath).
    rewrite Hpath. unfold dropboxTemporaryLinkByPath. rewrite Htoken.
    unfold bind, post, ret, throw.
    destruct (axios_post E (calls w) _) as [msg|data]; [reflexivity|].
    intros Hlink. unfold falsy in Hlink. by rewrite Hlink.
Qed.

Lemma download_without_reference_witness :
  downloadToTemp Scenario.provider VUndef VNull ".mp3" Scenario.empty_world
  = (Throw "Provide either url or dropboxPath", Scenario.empty_world).
Proof.
  apply (proj1 (download_without_reference Scenario.provider VUndef VNull ".mp3"
                  Scenario.empty_world eq_refl)).
  reflexivity.
Defined.

(** ** Cleanup *)

Lemma unlink_quietly_spec f w :
  fst (unlink_quietly f w) = Ok tt
  /\ files (snd (unlink_quietly f w)) = delete f (files w)
  /\ calls (snd (unlink_quietly f w)) = calls w.
Proof.
  unfold unlink_quietly, try_catch, unlinkSync, ret.
  destruct (files w !! f) as [content|] eqn:Hf; cbn [fst snd files set_files];
    [done|]. by rewrite delete_id.
Qed.

(** X7.  Releasing a staged path never raises and is idempotent: the path
    is absent afterwards, every other file is untouched, and releasing the
    same path again changes nothing. *)
Theorem unlink_quietly_idempotent f w :
  fst (unlink_quietly f w) = Ok tt
  /\ files (snd (unlink_quietly f w)) !! f = None
  /\ (forall g, g <> f ->
        files (snd (unlink_quietly f w)) !! g = files w !! g)
  /\ unlink_quietly f (snd (unlink_quietly f w))
     = (Ok tt, snd (unlink_quietly f w)).
Proof.
  destruct (unlink_quietly_spec f w) as (Hok & Hfiles & _).
  split; [done|]. rewrite Hfiles. split; [apply lookup_delete_eq|].
  split; [intros g Hg; by rewrite lookup_delete_ne|].
  unfold unlink_quietly at 1, try_catch, unlinkSync, ret.
  by rewrite Hfiles, lookup_delete_eq.
Qed.

Lemma cleanup_spec (l : list string) : forall w,
  exists w',
    for_each l unlink_quietly w = (Ok tt, w')
    /\ files w' = foldl (fun m f => delete f m) (files w) l
    /\ calls w' = calls w.
Proof.
  induction l as [|f l IH]; intros w; cbn [for_each foldl].
  - by exists w.
  - unfold bind.
    destruct (unlink_quietly_spec f w) as (Hok & Hfiles & Hcalls).
    destruct (unlink_quietly f w) as [r w1]. cbn [fst snd] in *. subst r.
    destruct (IH w1) as (w' & Hrun & Hfiles' & Hcalls').
    exists w'. split; [done|]. split; [by rewrite Hfiles', Hfiles|congruence].
Qed.

(** ** The handler, stage by stage *)

(** A success response means every stage returned, in this order: audio
    fetch, video fetch, staging name of the output, merge, upload,
    cleanup. *)
Lemma merge_handler_success E fuel req w o u e w' :
  merge_handler E fuel req w = (Ok (json 200 (MergedBody o u e)), w') ->
  exists audioTmp w1 videoTmp w2 outTmp w3 w4 w5,
    downloadToTemp E (audio_url (body_of req)) (audio_path (body_of req))
      ".mp3" w = (Ok audioTmp, w1)
    /\ downloadToTemp E (video_url (body_of req)) (video_path (body_of req))
         ".mp4" w1 = (Ok videoTmp, w2)
    /\ tmpFile E ".mp4" w2 = (Ok outTmp, w3)
    /\ save E
         (merge_command E videoTmp audioTmp
            (with_default (VNum 0) (audio_offset_sec (body_of req)))
            (with_default (VBool true) (trim_to_shortest (body_of req)))
            (with_default (VBool false) (reencode_video (body_of req)))
            (with_default (VStr "192k") (audio_bitrate (body_of req))))
         outTmp w3 = (Ok tt, w4)
    /\ dropboxUpload E fuel outTmp (out_path (body_of req)) w4 = (Ok u, w5)
    /\ for_each [audioTmp; videoTmp; outTmp] unlink_quietly w5 = (Ok tt, w')
    /\ o = out_path (body_of req)
    /\ e = ((Date_now E (calls w') - Date_now E (calls w) + 500) / 1000)%Z.
Proof.
  unfold merge_handler. intros Hrun.
  apply bind_Ok in Hrun as (start & w0 & Hnow & Hrun).
  injection Hnow as <- <-.
  unfold try_catch in Hrun.
  match type of Hrun with
  | context [match ?m w with _ => _ end] =>
      destruct (m w) as [[r|msg|] w1] eqn:Hbody
  end; [|discriminate..].
  injection Hrun as -> ->.
  destruct (token_missing E); [discriminate|].
  destruct (negb _); [discriminate|].
  destruct (negb _); [discriminate|].
  destruct (negb _); [discriminate|].
  apply bind_Ok in Hbody as (audioTmp & w1 & Haudio & Hbody).
  apply bind_Ok in Hbody as (videoTmp & w2 & Hvideo & Hbody).
  apply bind_Ok in Hbody as (outTmp & w3 & Hout & Hbody).
  apply bind_Ok in Hbody as ([] & w4 & Hsave & Hbody).
  apply bind_Ok in Hbody as (uploaded & w5 & Hupload & Hbody).
  apply bind_Ok in Hbody as ([] & w6 & Hclean & Hbody).
  apply bind_Ok in Hbody as (finish & w7 & Hfinish & Hbody).
  injection Hfinish as <- <-. injection Hbody as <- <- <- <-.
  by exists audioTmp, w1, videoTmp, w2, outTmp, w3, w4, w5.
Qed.

(** X8.  The handler never lets an exception escape.  Whenever it answers,
    the answer is a 400 with an error message and an untouched world, or a
    500 with an error message after logging [merge.error], or a 200 with
    the merged body. *)
Theorem handler_answers E fuel req w :
  match merge_handler E fuel req w with
  | (Ok response, w') =>
      (status response = 400%Z
       /\ (exists error, payload response = ErrorBody error) /\ w' = w)
      \/ (status response = 500%Z
          /\ (exists error, payload response = ErrorBody error)
          /\ last (console w') = Some "merge.error")
      \/ (status response = 200%Z
          /\ exists o u e, payload response = MergedBody o u e)
  | (Throw _, _) => False
  | (Diverge, _) => True
  end.
Proof.
  destruct (merge_handler E fuel req w) as [[response|msg|] w'] eqn:Hrun;
    [| |done]; revert Hrun;
    unfold merge_handler, bind at 1, now, try_catch;
    match goal with
    | |- context [match ?m w with _ => _ end] =>
        destruct (m w) as [[r|thrown|] w1] eqn:Hbody
    end; try discriminate.
  - intros [= -> ->].
    destruct (token_missing E).
    { injection Hbody as <- <-. left. eauto. }
    destruct (negb _). { injection Hbody as <- <-. left. eauto. }
    destruct (negb _). { injection Hbody as <- <-. left. eauto. }
    destruct (negb _). { injection Hbody as <- <-. left. eauto. }
    apply bind_Ok in Hbody as (? & ? & _ & Hbody).
    apply bind_Ok in Hbody as (? & ? & _ & Hbody).
    apply bind_Ok in Hbody as (? & ? & _ & Hbody).
    apply bind_Ok in Hbody as (? & ? & _ & Hbody).
    apply bind_Ok in Hbody as (? & ? & _ & Hbody).
    apply bind_Ok in Hbody as (? & ? & _ & Hbody).
    apply bind_Ok in Hbody as (? & ? & _ & Hbody).
    injection Hbody as <- <-. right. right. eauto.
  - unfold bind, log, ret. intros [= <- <-]. right. left.
    split; [done|]. split; [eauto|]. cbn. apply last_snoc.
Qed.

Lemma resolve_only_sends E (c : bool) dropboxPath url w :
  exists sent,
    snd ((if c then dropboxTemporaryLinkByPath E dropboxPath else ret url) w)
    = add_calls sent w.
Proof.
  destruct c; [|exists []; by rewrite add_calls_nil].
  unfold dropboxTemporaryLinkByPath.
  destruct (token_missing E); [exists []; by rewrite add_calls_nil|].
  unfold bind, post, ret.
  exists [GetTemporaryLink (bearer E) dropboxPath].
  by destruct (axios_post E (calls w) _).
Qed.

Lemma downloadToTemp_Ok E url dropboxPath ext w outFile w1 :
  downloadToTemp E url dropboxPath ext w = (Ok outFile, w1) ->
  outFile = staging_name E (uuids w) ext
  /\ uuids w1 = S (uuids w)
  /\ exists received, files w1 = <[outFile := received]> (files w).
Proof.
  unfold downloadToTemp. intros Hrun.
  apply bind_Ok in Hrun as (directUrl & w0 & Hresolve & Hrun).
  destruct (resolve_only_sends E
              (negb (truthy (with_default VNull url))
               && truthy (with_default VNull dropboxPath))
              (with_default VNull dropboxPath) (with_default VNull url) w)
    as (sent & Hsent).
  rewrite Hresolve in Hsent. cbn [snd] in Hsent. subst w0.
  destruct (truthy directUrl) eqn:Hurl; [|discriminate].
  pose proof (download_outcome E directUrl ext (add_calls sent w) Hurl)
    as (Huuids & Hget).
  cbn zeta in Huuids, Hget. rewrite Hurl in Huuids, Hget.
  cbn [negb] in Hrun, Huuids, Hget. rewrite Hrun in Huuids, Hget.
  cbn [fst snd uuids files add_calls] in Huuids, Hget.
  destruct (axios_get E _ _) as [msg|received [msg|]];
    destruct Hget as (Hfst & Hfiles); try discriminate.
  injection Hfst as ->. split; [done|]. split; [done|]. by exists received.
Qed.

Lemma save_Ok E cmd outTmp w w1 :
  save E cmd outTmp w = (Ok tt, w1) ->
  uuids w1 = uuids w
  /\ (files w1 = files w
      \/ exists written, files w1 = <[outTmp := written]> (files w)).
Proof.
  unfold save.
  destruct (ffmpeg_run E (calls w) cmd outTmp) as [started progress written terminal].
  cbn [ff_written ff_started ff_progress ff_terminal_event].
  destruct terminal; [|discriminate]. intros [= <-].
  assert (Hiter : forall n w0,
            uuids (Nat.iter n (add_line "ffmpeg.progress") w0) = uuids w0
            /\ files (Nat.iter n (add_line "ffmpeg.progress") w0) = files w0).
  { induction n as [|n IH]; intros w0; [done|]. cbn. apply IH. }
  cbn [uuids files add_line].
  match goal with
  | |- context [Nat.iter progress _ ?x] =>
      destruct (Hiter progress x) as (-> & ->)
  end.
  destruct started, written; cbn; eauto.
Qed.

(** X9.  After a success response the three staging paths of the
    invocation (audio, video, output) are absent from the file system and
    every other path holds what it held before the request. *)
Theorem success_leaves_no_staging_file E fuel req w o u e w' :
  merge_handler E fuel req w = (Ok (json 200 (MergedBody o u e)), w') ->
  let audioTmp := staging_name E (uuids w) ".mp3" in
  let videoTmp := staging_name E (S (uuids w)) ".mp4" in
  let outTmp := staging_name E (S (S (uuids w))) ".mp4" in
  files w' !! audioTmp = None
  /\ files w' !! videoTmp = None
  /\ files w' !! outTmp = None
  /\ (forall f, f <> audioTmp -> f <> videoTmp -> f <> outTmp ->
        files w' !! f = files w !! f).
Proof.
  intros Hrun. cbn zeta.
  destruct (merge_handler_success E fuel req w o u e w' Hrun)
    as (a & w1 & v & w2 & t & w3 & w4 & w5
        & Haudio & Hvideo & Hout & Hsave & Hupload & Hclean & _ & _).
  apply downloadToTemp_Ok in Haudio as (-> & Hu1 & received1 & Hf1).
  apply downloadToTemp_Ok in Hvideo as (-> & Hu2 & received2 & Hf2).
  injection Hout as <- <-. unfold tmpFile in Hsave, Hupload, Hclean.
  rewrite Hu2, Hu1 in *. fold (staging_name E (S (S (uuids w))) ".mp4") in *.
  set (audioTmp := staging_name E (uuids w) ".mp3") in *.
  set (videoTmp := staging_name E (S (uuids w)) ".mp4") in *.
  set (outTmp := staging_name E (S (S (uuids w))) ".mp4") in *.
  apply save_Ok in Hsave as (_ & Hf4).
  destruct (dropboxUpload_frame E fuel outTmp (out_path (body_of req)) w4)
    as (sent & Hsent).
  rewrite Hupload in Hsent. cbn [snd] in Hsent.
  destruct (cleanup_spec [audioTmp; videoTmp; outTmp] w5) as (w6 & Hclean' & Hf6 & _).
  rewrite Hclean in Hclean'. injection Hclean' as <-.
  cbn [foldl] in Hf6. rewrite Hsent in Hf6. cbn [files add_calls next_uuid] in Hf4, Hf6.
  rewrite Hf6.
  assert (Hbase : forall f, f <> audioTmp -> f <> videoTmp -> f <> outTmp ->
            files w4 !! f = files w !! f).
  { intros f Ha Hv Ho.
    destruct Hf4 as [-> | (written & ->)]; rewrite ?Hf2, ?Hf1;
      by rewrite ?lookup_insert_ne by done. }
  repeat split.
  - rewrite !lookup_delete. by repeat case_decide.
  - rewrite !lookup_delete. by repeat case_decide.
  - rewrite !lookup_delete. by repeat case_decide.
  - intros f Ha Hv Ho. rewrite !lookup_delete_ne by done. by apply Hbase.
Qed.

Lemma success_leaves_no_staging_file_witness :
  files (snd (merge_handler Scenario.provider 1 Scenario.by_path
                Scenario.empty_world))
    !! staging_name Scenario.provider 0 ".mp3" = None
  /\ files (snd (merge_handler Scenario.provider 1 Scenario.by_path
                   Scenario.empty_world))
       !! staging_name Scenario.provider 1 ".mp4" = None
  /\ files (snd (merge_handler Scenario.provider 1 Scenario.by_path
                   Scenario.empty_world))
       !! staging_name Scenario.provider 2 ".mp4" = None
  /\ (forall f,
        f <> staging_name Scenario.provider 0 ".mp3" ->
        f <> staging_name Scenario.provider 1 ".mp4" ->
        f <> staging_name Scenario.provider 2 ".mp4" ->
        files (snd (merge_handler Scenario.provider 1 Scenario.by_path
                      Scenario.empty_world)) !! f
        = files Scenario.empty_world !! f).
Proof.
  apply (success_leaves_no_staging_file Scenario.provider 1 Scenario.by_path
           Scenario.empty_world (VStr "/out.mp4")
           [("name", VStr "merged.mp4"); ("path_display", VStr "/out.mp4");
            ("id", VStr "id:a4ayc_80_OEAAAAAAAAAXw");
            ("rev", VStr "a1c10ce0dd78")]
           6%Z
           (snd (merge_handler Scenario.provider 1 Scenario.by_path
                   Scenario.empty_world))).
  vm_compute. reflexivity.
Defined.

(** X11.  The [elapsed_sec] of a success response is the difference of
    the two clock readings in milliseconds, divided by 1000 and rounded
    half up; it is not negative when the clock does not run backwards. *)
Theorem elapsed_is_rounded_clock_difference E fuel req w o u e w' :
  merge_handler E fuel req w = (Ok (json 200 (MergedBody o u e)), w') ->
  e = ((Date_now E (calls w') - Date_now E (calls w) + 500) / 1000)%Z
  /\ ((forall h l, (Date_now E h <= Date_now E (h ++ l))%Z) -> (0 <= e)%Z).
Proof.
  intros Hrun.
  destruct (merge_handler_success E fuel req w o u e w' Hrun)
    as (a & w1 & v & w2 & t & w3 & w4 & w5 & _ & _ & _ & _ & _ & _ & _ & ->).
  split; [reflexivity|]. intros Hclock.
  destruct (merge_handler_engine_runs E fuel req w) as (sent & Hsent & _).
  rewrite Hrun in Hsent. cbn [snd] in Hsent. rewrite Hsent.
  specialize (Hclock (calls w) sent).
  apply Z.div_pos; lia.
Qed.

Lemma elapsed_is_rounded_clock_difference_witness :
  6%Z = ((Date_now Scenario.provider
            (calls (snd (merge_handler Scenario.provider 1 Scenario.by_path
                           Scenario.empty_world)))
          - Date_now Scenario.provider (calls Scenario.empty_world) + 500)
         / 1000)%Z
  /\ (0 <= 6)%Z.
Proof.
  destruct (elapsed_is_rounded_clock_difference Scenario.provider 1
              Scenario.by_path Scenario.empty_world (VStr "/out.mp4")
              [("name", VStr "merged.mp4"); ("path_display", VStr "/out.mp4");
               ("id", VStr "id:a4ayc_80_OEAAAAAAAAAXw");
               ("rev", VStr "a1c10ce0dd78")]
              6%Z
              (snd (merge_handler Scenario.provider 1 Scenario.by_path
                      Scenario.empty_world)))
    as [Hformula Hpositive].
  { vm_compute. reflexivity. }
  split; [exact Hformula|]. apply Hpositive.
  intros h l. cbn [Date_now Scenario.provider Scenario.service].
  rewrite length_app. lia.
Defined.

(** ** What a failed invocation leaves on disk *)

Lemma kept_refl w : kept w w.
Proof. by intros f. Qed.

Lemma kept_trans w1 w2 w3 : kept w1 w2 -> kept w2 w3 -> kept w1 w3.
Proof. intros H12 H23 f Hf. by apply H23, H12. Qed.

Lemma kept_files w w' :
  files w' = files w \/ (exists f content, files w' = <[f := content]> (files w)) ->
  kept w w'.
Proof.
  intros [Hsame | (f & content & Hins)] g Hg.
  - by rewrite Hsame.
  - rewrite Hins. destruct (decide (f = g)) as [->|Hne].
    + by rewrite lookup_insert_eq.
    + by rewrite lookup_insert_ne.
Qed.

Lemma downloadToTemp_keeps E url dropboxPath ext w :
  kept w (snd (downloadToTemp E url dropboxPath ext w)).
Proof.
  unfold downloadToTemp, bind at 1.
  destruct (resolve_only_sends E
              (negb (truthy (with_default VNull url))
               && truthy (with_default VNull dropboxPath))
              (with_default VNull dropboxPath) (with_default VNull url) w)
    as (sent & Hsent).
  match type of Hsent with
  | snd ?r = _ => destruct r as [[directUrl|msg|] w0]
  end; cbn [snd] in Hsent; subst w0; [|apply kept_files; by left..].
  destruct (truthy directUrl) eqn:Hurl; [|apply kept_files; by left].
  pose proof (download_outcome E directUrl ext (add_calls sent w) Hurl)
    as (_ & Hget).
  cbn zeta in Hget. rewrite Hurl in Hget. cbn [negb] in Hget |- *.
  apply kept_files.
  destruct (axios_get E _ _) as [msg|received [msg|]];
    destruct Hget as (_ & ->); cbn [files add_calls]; eauto.
Qed.

Lemma save_files E cmd outTmp w :
  files (snd (save E cmd outTmp w)) = files w
  \/ exists written, files (snd (save E cmd outTmp w)) = <[outTmp := written]> (files w).
Proof.
  unfold save.
  destruct (ffmpeg_run E (calls w) cmd outTmp) as [started progress written terminal].
  cbn [ff_written ff_started ff_progress ff_terminal_event].
  assert (Hiter : forall n w0,
            files (Nat.iter n (add_line "ffmpeg.progress") w0) = files w0).
  { induction n as [|n IH]; intros w0; [done|]. cbn. apply IH. }
  destruct terminal; cbn [snd files add_line]; rewrite Hiter;
    destruct started, written; cbn; eauto.
Qed.

Lemma after_fetch_keeps E fuel req start audioTmp w1 r w' :
  (videoTmp <~ downloadToTemp E (video_url (body_of req))
                 (video_path (body_of req)) ".mp4" ;;
   outTmp <~ tmpFile E ".mp4" ;;
   save E
     (merge_command E videoTmp audioTmp
        (with_default (VNum 0) (audio_offset_sec (body_of req)))
        (with_default (VBool true) (trim_to_shortest (body_of req)))
        (with_default (VBool false) (reencode_video (body_of req)))
        (with_default (VStr "192k") (audio_bitrate (body_of req))))
     outTmp ;;;
   uploaded <~ dropboxUpload E fuel outTmp (out_path (body_of req)) ;;
   for_each [audioTmp; videoTmp; outTmp] unlink_quietly ;;;
   finish <~ now E ;;
   ret (json 200 (MergedBody (out_path (body_of req)) uploaded
                   ((finish - start + 500) / 1000)%Z))) w1 = (r, w') ->
  (exists o u e, r = Ok (json 200 (MergedBody o u e)))
  \/ (kept w1 w' /\ forall response, r <> Ok response).
Proof.
  unfold bind at 1.
  pose proof (downloadToTemp_keeps E (video_url (body_of req))
                (video_path (body_of req)) ".mp4" w1) as Hk2.
  destruct (downloadToTemp E _ _ ".mp4" w1) as [[videoTmp|msg|] w2];
    cbn [snd] in Hk2; [|intros [= <- <-]; right; by split..].
  unfold bind at 1, tmpFile at 1. unfold bind at 1.
  match goal with
  | |- context [save E ?cmd ?out ?w] =>
      pose proof (save_files E cmd out w) as Hk4;
      destruct (save E cmd out w) as [[[]|msg|] w4] eqn:Hsave
  end; cbn [snd files next_uuid] in Hk4.
  2,3: intros [= <- <-]; right; split; [|done]; eapply kept_trans;
       [exact Hk2|]; apply kept_files; destruct Hk4 as [?|[? ?]]; eauto.
  unfold bind at 1.
  match goal with
  | |- context [dropboxUpload E fuel ?out ?dest w4] =>
      destruct (dropboxUpload_frame E fuel out dest w4) as (sent & Hsent);
      destruct (dropboxUpload E fuel out dest w4) as [[uploaded|msg|] w5]
  end; cbn [snd] in Hsent; subst w5.
  2,3: intros [= <- <-]; right; split; [|done]; eapply kept_trans;
       [exact Hk2|]; apply kept_files; cbn [files add_calls];
       destruct Hk4 as [?|[? ?]]; eauto.
  unfold bind at 1.
  match goal with
  | |- context [for_each ?l unlink_quietly ?w] =>
      destruct (cleanup_spec l w) as (w6 & -> & _ & _)
  end.
  unfold bind, now, ret. intros [= <- <-]. left. eauto.
Qed.

(** X10.  Unless the handler answers with success, it deletes nothing:
    every file there before the request is still there, and so is the
    staged audio file once its fetch returned. *)
Theorem failure_deletes_nothing E fuel req w :
  (exists o u e,
     fst (merge_handler E fuel req w) = Ok (json 200 (MergedBody o u e)))
  \/ (kept w (snd (merge_handler E fuel req w))
      /\ forall audioTmp w1,
           token_missing E = false ->
           truthy (out_path (body_of req)) = true ->
           truthy (js_or (audio_url (body_of req)) (audio_path (body_of req)))
           = true ->
           truthy (js_or (video_url (body_of req)) (video_path (body_of req)))
           = true ->
           downloadToTemp E (audio_url (body_of req)) (audio_path (body_of req))
             ".mp3" w = (Ok audioTmp, w1) ->
           is_Some (files (snd (merge_handler E fuel req w)) !! audioTmp)).
Proof.
  destruct (merge_handler E fuel req w) as [r w'] eqn:Hrun. cbn [fst snd].
  revert Hrun. unfold merge_handler, bind at 1, now, try_catch.
  destruct (token_missing E).
  { intros [= <- <-]. right. split; [apply kept_refl|discriminate]. }
  destruct (truthy (out_path (body_of req))); cbn [negb].
  2: { intros [= <- <-]. right. split; [apply kept_refl|discriminate]. }
  destruct (truthy (js_or (audio_url _) _)); cbn [negb].
  2: { intros [= <- <-]. right. split; [apply kept_refl|discriminate]. }
  destruct (truthy (js_or (video_url _) _)); cbn [negb].
  2: { intros [= <- <-]. right. split; [apply kept_refl|discriminate]. }
  unfold bind at 1.
  pose proof (downloadToTemp_keeps E (audio_url (body_of req))
                (audio_path (body_of req)) ".mp3" w) as Hk1.
  destruct (downloadToTemp E _ _ ".mp3" w) as [[audioTmp|msg|] w1] eqn:Haudio;
    cbn [snd] in Hk1.
  2: { unfold bind, log, ret. intros [= <- <-]. right.
       split; [exact Hk1|discriminate]. }
  2: { intros [= <- <-]. right. split; [exact Hk1|discriminate]. }
  match goal with
  | |- context [match ?rest w1 with _ => _ end] =>
      destruct (rest w1) as [r1 w2] eqn:Hrest
  end.
  destruct (after_fetch_keeps E fuel req (Date_now E (calls w)) audioTmp w1 r1 w2
              Hrest) as [(o & u & e & ->)|(Hkept & Hno)].
  { intros [= <- <-]. left. eauto. }
  assert (Hstaged : is_Some (files w1 !! audioTmp)).
  { apply downloadToTemp_Ok in Haudio as (_ & _ & received & ->).
    by rewrite lookup_insert_eq. }
  destruct r1 as [response|msg|]; [by destruct (Hno response)| |];
    unfold bind, log, ret; intros [= <- <-]; right;
    (split; [by eapply kept_trans|]);
    intros a w1' _ _ _ _ [= <- <-]; by apply Hkept.
Qed.

(** ** Which references count as shared links *)

Lemma string_app_cons c (s t : string) :
  String c s +:+ t = String c (s +:+ t).
Proof. reflexivity. Qed.

Lemma string_length_app (s t : string) :
  String.length (s +:+ t) = (String.length s + String.length t)%nat.
Proof.
  induction s as [|c s IH]; [done|].
  rewrite string_app_cons. simpl. f_equal. exact IH.
Qed.

Lemma substring_all (s : string) : substring 0 (String.length s) s = s.
Proof. induction s as [|c s IH]; [done|]. simpl. f_equal. exact IH. Qed.

Lemma substring_skip (s t : string) :
  substring (String.length s) (String.length t) (s +:+ t) = t.
Proof.
  induction s as [|c s IH]; [apply substring_all|].
  rewrite string_app_cons. exact IH.
Qed.

Lemma substring_split (s : string) : forall i,
  (i <= String.length s)%nat ->
  s = substring 0 i s +:+ substring i (String.length s - i) s.
Proof.
  induction s as [|c s IH]; intros [|i] Hi; simpl in *; try lia.
  - reflexivity.
  - by rewrite substring_all.
  - rewrite string_app_cons. f_equal. apply IH. lia.
Qed.

Lemma endsWith_spec (s suffix : string) :
  endsWith s suffix = true <-> exists before, s = before +:+ suffix.
Proof.
  unfold endsWith. rewrite andb_true_iff, Nat.leb_le, String.eqb_eq. split.
  - intros [Hle Hsub].
    exists (substring 0 (String.length s - String.length suffix) s).
    rewrite <- Hsub at 2.
    rewrite (substring_split s (String.length s - String.length suffix)) at 1
      by lia.
    do 2 f_equal. lia.
  - intros [before ->]. rewrite string_length_app. split; [lia|].
    replace (String.length before + String.length suffix - String.length suffix)%nat
      with (String.length before) by lia.
    apply substring_skip.
Qed.

(** X12.  A reference counts as a shared link exactly when it parses as a
    URL whose hostname is any string followed by [dropbox.com] or [db.tt]:
    no dot is asked for before the domain, and a reference that does not
    parse never counts. *)
Theorem shared_link_iff_host_suffix E url :
  isDropboxSharedLink E url = true
  <-> exists u before,
        URL_parse E (String_ E url) = Some u
        /\ (hostname u = before +:+ "dropbox.com"
            \/ hostname u = before +:+ "db.tt").
Proof.
  unfold isDropboxSharedLink. split.
  - destruct (URL_parse E (String_ E url)) as [u|]; [|discriminate].
    rewrite orb_true_iff, !endsWith_spec.
    intros [[before Hhost]|[before Hhost]]; exists u, before; eauto.
  - intros (u & before & -> & Hhost).
    rewrite orb_true_iff, !endsWith_spec. destruct Hhost; eauto.
Qed.

(** ** Rewriting a link twice *)

Section SearchParamsTwice.
Import URLSearchParams.
Variables (name v : string).

Lemma has_set l : has name (set name v l) = true.
Proof.
  unfold has. induction l as [|[k x] l IH]; cbn.
  - by rewrite String.eqb_refl.
  - destruct (String.eqb k name) eqn:Hk; cbn.
    + by rewrite String.eqb_refl.
    + by rewrite Hk.
Qed.

Lemma has_append l : has name (append name v l) = true.
Proof.
  unfold has, append. rewrite existsb_app. cbn.
  rewrite String.eqb_refl. apply orb_true_r.
Qed.

Lemma set_set l : set name v (set name v l) = set name v l.
Proof.
  induction l as [|[k x] l IH]; cbn.
  - by rewrite String.eqb_refl.
  - destruct (String.eqb k name) eqn:Hk; cbn.
    + rewrite String.eqb_refl. by rewrite without_without.
    + by rewrite Hk, IH.
Qed.

Lemma set_append l :
  has name l = false -> set name v (append name v l) = append name v l.
Proof.
  unfold has, append. induction l as [|[k x] l IH]; cbn.
  - by rewrite String.eqb_refl.
  - destruct (String.eqb k name) eqn:Hk; cbn; [done|].
    intros Hl. by rewrite IH.
Qed.

End SearchParamsTwice.

Lemma direct_params_idempotent sp :
  direct_params (direct_params sp) = direct_params sp.
Proof.
  unfold direct_params. destruct (URLSearchParams.has "dl" sp) eqn:Hhas.
  - rewrite has_set. apply set_set.
  - rewrite has_append. by apply set_append.
Qed.

(** X13.  Rewriting a link that is already direct changes nothing, and
    the rewritten link is on a sharing domain exactly when the original is;
    this holds when the runtime parses the rewritten URL back to what it
    serialised. *)
Theorem toDirectDownload_idempotent E url :
  (forall u,
     URL_parse E (String_ E url) = Some u ->
     URL_parse E
       (URL_toString E (with_searchParams u (direct_params (searchParams u))))
     = Some (with_searchParams u (direct_params (searchParams u)))) ->
  toDirectDownload E (toDirectDownload E url) = toDirectDownload E url
  /\ isDropboxSharedLink E (toDirectDownload E url)
     = isDropboxSharedLink E url.
Proof.
  intros Hback. unfold toDirectDownload, isDropboxSharedLink.
  destruct (URL_parse E (String_ E url)) as [u|] eqn:Hparse.
  - fold (direct_params (searchParams u)). cbn [String_].
    rewrite (Hback u eq_refl). cbn [searchParams with_searchParams hostname].
    fold (direct_params (direct_params (searchParams u))).
    by rewrite direct_params_idempotent.
  - by rewrite Hparse.
Qed.

Lemma toDirectDownload_idempotent_witness :
  toDirectDownload Links.runtime
    (toDirectDownload Links.runtime (VStr Scenario.shared_link))
  = toDirectDownload Links.runtime (VStr Scenario.shared_link)
  /\ isDropboxSharedLink Links.runtime
       (toDirectDownload Links.runtime (VStr Scenario.shared_link))
     = isDropboxSharedLink Links.runtime (VStr Scenario.shared_link).
Proof.
  apply (toDirectDownload_idempotent Links.runtime (VStr Scenario.shared_link)).
  intros u Hu. vm_compute in Hu. injection Hu as <-. vm_compute. reflexivity.
Defined.

(** ** The order of the stages *)

Lemma downloadToTemp_fetches E url dropboxPath ext :
  emits (fun c => is_fetch c = true) (downloadToTemp E url dropboxPath ext).
Proof.
  unfold downloadToTemp. apply emits_bind.
  - destruct (_ && _); [|apply emits_ret].
    unfold dropboxTemporaryLinkByPath. destruct (token_missing E).
    + apply emits_throw.
    + apply emits_bind; [by apply emits_post|]. intros data. apply emits_ret.
  - intros directUrl. destruct (negb _); [apply emits_throw|].
    apply emits_bind; [apply emits_tmpFile|]. intros outFile.
    apply emits_bind; [apply emits_log|]. intros _.
    apply emits_bind; [by apply emits_get_to_file|]. intros _.
    apply emits_bind; [apply emits_log|]. intros _. apply emits_ret.
Qed.

Lemma dropboxUpload_uploads E fuel localPath dest :
  emits (fun c => is_upload c = true) (dropboxUpload E fuel localPath dest).
Proof.
  unfold dropboxUpload. apply emits_bind; [apply emits_statSync_size|].
  intros size. destruct (size <=? _)%Z.
  - apply emits_bind; [apply emits_readFileSync|]. intros content.
    apply emits_bind; [by apply emits_post|]. intros data. apply emits_ret.
  - apply emits_bind; [by apply emits_post|]. intros started.
    apply emits_bind; [apply emits_readFileSync|]. intros fd.
    apply emits_bind; [|intros _; apply emits_ret].
    intros w.
    destruct (upload_loop_calls E CHUNK size fd (get_field "session_id" started)
                dest fuel (Some 0%Z) (replicate (Z.to_nat CHUNK) x00) w)
      as (sent & -> & Hall).
    exists sent. split; [done|].
    apply Forall_forall. intros c Hc.
    rewrite forallb_forall in Hall.
    specialize (Hall c (proj1 (list_elem_of_In _ _) Hc)).
    by destruct c.
Qed.

Lemma save_calls E cmd outTmp w :
  calls (snd (save E cmd outTmp w)) = calls w ++ [FfmpegSave cmd outTmp].
Proof.
  unfold save.
  destruct (ffmpeg_run E (calls w) cmd outTmp) as [started progress written terminal].
  cbn [ff_written ff_started ff_progress ff_terminal_event].
  destruct terminal; cbn [snd add_line calls]; rewrite calls_progress_lines;
    by destruct started, written.
Qed.

(** X14.  The calls of an invocation come in stage order: first the fetch
    calls (temporary links and downloads), then at most one engine run,
    then the upload calls; nothing is uploaded without an engine run
    before it. *)
Theorem stages_in_order E fuel req w :
  exists fetches engine uploads,
    calls (snd (merge_handler E fuel req w))
    = calls w ++ fetches ++ engine ++ uploads
    /\ Forall (fun c => is_fetch c = true) fetches
    /\ (engine = [] \/ exists cmd outTmp, engine = [FfmpegSave cmd outTmp])
    /\ Forall (fun c => is_upload c = true) uploads
    /\ (engine = [] -> uploads = []).
Proof.
  destruct (merge_handler E fuel req w) as [r w'] eqn:Hrun. cbn [snd].
  revert Hrun. unfold merge_handler, bind at 1, now, try_catch.
  assert (Hnone : forall w0 : World, calls w0 = calls w ->
            exists fetches engine uploads,
              calls w0 = calls w ++ fetches ++ engine ++ uploads
              /\ Forall (fun c => is_fetch c = true) fetches
              /\ (engine = [] \/ exists cmd outTmp, engine = [FfmpegSave cmd outTmp])
              /\ Forall (fun c => is_upload c = true) uploads
              /\ (engine = [] -> uploads = [])).
  { intros w0 ->. exists [], [], []. rewrite app_nil_r. repeat split; eauto. }
  destruct (token_missing E). { intros [= <- <-]. by apply Hnone. }
  destruct (negb _). { intros [= <- <-]. by apply Hnone. }
  destruct (negb _). { intros [= <- <-]. by apply Hnone. }
  destruct (negb _). { intros [= <- <-]. by apply Hnone. }
  clear Hnone. unfold bind at 1.
  destruct (downloadToTemp_fetches E (audio_url (body_of req))
              (audio_path (body_of req)) ".mp3" w) as (s1 & Hs1 & Hf1).
  destruct (downloadToTemp E _ _ ".mp3" w) as [[audioTmp|msg|] w1];
    cbn [snd] in Hs1.
  2,3: unfold bind, log, ret; intros [= <- <-]; exists s1, [], [];
       cbn [calls add_line]; rewrite Hs1, !app_nil_r; repeat split; eauto.
  unfold bind at 1.
  destruct (downloadToTemp_fetches E (video_url (body_of req))
              (video_path (body_of req)) ".mp4" w1) as (s2 & Hs2 & Hf2).
  destruct (downloadToTemp E _ _ ".mp4" w1) as [[videoTmp|msg|] w2];
    cbn [snd] in Hs2.
  2,3: unfold bind, log, ret; intros [= <- <-]; exists (s1 ++ s2), [], [];
       cbn [calls add_line]; rewrite Hs2, Hs1, !app_nil_r, app_assoc;
       repeat split; eauto; by apply Forall_app.
  unfold bind at 1, tmpFile at 1. unfold bind at 1.
  match goal with
  | |- context [save E ?cmd ?out ?w0] =>
      pose proof (save_calls E cmd out w0) as Hs4;
      destruct (save E cmd out w0) as [[[]|msg|] w4];
      set (run := FfmpegSave cmd out) in *
  end; cbn [snd calls next_uuid] in Hs4.
  2,3: unfold bind, log, ret; intros [= <- <-]; exists (s1 ++ s2), [run], [];
       cbn [calls add_line]; rewrite Hs4, Hs2, Hs1, !app_nil_r, <- !app_assoc;
       repeat split; eauto; try discriminate; by apply Forall_app.
  unfold bind at 1.
  match goal with
  | |- context [dropboxUpload E fuel ?out ?dest w4] =>
      destruct (dropboxUpload_uploads E fuel out dest w4) as (s5 & Hs5 & Hf5);
      destruct (dropboxUpload E fuel out dest w4) as [[uploaded|msg|] w5]
  end; cbn [snd] in Hs5.
  2,3: unfold bind, log, ret; intros [= <- <-]; exists (s1 ++ s2), [run], s5;
       cbn [calls add_line]; rewrite Hs5, Hs4, Hs2, Hs1, <- !app_assoc;
       repeat split; eauto; try discriminate; by apply Forall_app.
  unfold bind at 1.
  match goal with
  | |- context [for_each ?l unlink_quietly ?w0] =>
      destruct (cleanup_spec l w0) as (w6 & -> & _ & Hs6)
  end.
  unfold bind, ret. intros [= <- <-]. exists (s1 ++ s2), [run], s5.
  rewrite Hs6, Hs5, Hs4, Hs2, Hs1, <- !app_assoc.
  repeat split; eauto; try discriminate; by apply Forall_app.
Qed.

(** ** When the handler succeeds, and what an engine error becomes *)

Lemma merge_handler_valid E fuel req w :
  valid_request E req ->
  merge_handler E fuel req w
  = try_catch
      (audioTmp <~ downloadToTemp E (audio_url (body_of req))
                     (audio_path (body_of req)) ".mp3" ;;
       videoTmp <~ downloadToTemp E (video_url (body_of req))
                     (video_path (body_of req)) ".mp4" ;;
       outTmp <~ tmpFile E ".mp4" ;;
       save E (command_of E req videoTmp audioTmp) outTmp ;;;
       uploaded <~ dropboxUpload E fuel outTmp (out_path (body_of req)) ;;
       for_each [audioTmp; videoTmp; outTmp] unlink_quietly ;;;
       finish <~ now E ;;
       ret (json 200 (MergedBody (out_path (body_of req)) uploaded
                       ((finish - Date_now E (calls w) + 500) / 1000)%Z)))
      (fun message =>
         log "merge.error" ;;;
         ret (json 500 (ErrorBody message))) w.
Proof.
  intros (Htoken & Hout & Haudio & Hvideo).
  unfold merge_handler, bind at 1, now at 1. cbn beta iota.
  unfold try_catch. by rewrite Htoken, Hout, Haudio, Hvideo.
Qed.

(** X15.  The handler answers 200 with destination [o] and upload result
    [u] exactly when the request is valid, [o] is its [out_path], and the
    audio fetch, the video fetch, the merge and the upload return one after
    the other, the upload returning [u]. *)
Theorem success_iff_every_stage_returns E fuel req w o u :
  (exists e w',
     merge_handler E fuel req w = (Ok (json 200 (MergedBody o u e)), w'))
  <-> (valid_request E req
       /\ o = out_path (body_of req)
       /\ exists audioTmp w1 videoTmp w2 w4 w5,
            downloadToTemp E (audio_url (body_of req))
              (audio_path (body_of req)) ".mp3" w = (Ok audioTmp, w1)
            /\ downloadToTemp E (video_url (body_of req))
                 (video_path (body_of req)) ".mp4" w1 = (Ok videoTmp, w2)
            /\ save E (command_of E req videoTmp audioTmp)
                 (staging_name E (uuids w2) ".mp4") (next_uuid w2)
               = (Ok tt, w4)
            /\ dropboxUpload E fuel (staging_name E (uuids w2) ".mp4")
                 (out_path (body_of req)) w4 = (Ok u, w5)).
Proof.
  split.
  - intros (e & w' & Hrun).
    assert (Hvalid : valid_request E req).
    { revert Hrun. unfold merge_handler, bind at 1, now at 1, try_catch,
        valid_request.
      destruct (token_missing E); [discriminate|].
      destruct (truthy (out_path _)); [|discriminate].
      destruct (truthy (js_or (audio_url _) _)); [|discriminate].
      destruct (truthy (js_or (video_url _) _)); [|discriminate]. done. }
    split; [done|].
    destruct (merge_handler_success E fuel req w o u e w' Hrun)
      as (a & w1 & v & w2 & t & w3 & w4 & w5
          & Haudio & Hvideo & Hout & Hsave & Hupload & _ & -> & _).
    split; [done|]. injection Hout as <- <-.
    by exists a, w1, v, w2, w4, w5.
  - intros (Hvalid & -> & a & w1 & v & w2 & w4 & w5
            & Haudio & Hvideo & Hsave & Hupload).
    rewrite (merge_handler_valid E fuel req w Hvalid).
    unfold try_catch, bind at 1. rewrite Haudio.
    unfold bind at 1. rewrite Hvideo.
    unfold bind at 1, tmpFile at 1. fold (staging_name E (uuids w2) ".mp4").
    unfold bind at 1. rewrite Hsave.
    unfold bind at 1. rewrite Hupload.
    unfold bind at 1.
    destruct (cleanup_spec [a; v; staging_name E (uuids w2) ".mp4"] w5)
      as (w6 & -> & _ & _).
    unfold bind, now, ret. eauto.
Qed.

(** X16.  When both fetches return and the engine reports an error, the
    handler answers 500 with the engine's message, and the engine run is
    the last call of the invocation: nothing is uploaded. *)
Theorem merge_error_is_reported E fuel req w audioTmp w1 videoTmp w2 message :
  valid_request E req ->
  downloadToTemp E (audio_url (body_of req)) (audio_path (body_of req))
    ".mp3" w = (Ok audioTmp, w1) ->
  downloadToTemp E (video_url (body_of req)) (video_path (body_of req))
    ".mp4" w1 = (Ok videoTmp, w2) ->
  ff_terminal_event
    (ffmpeg_run E (calls w2) (command_of E req videoTmp audioTmp)
       (staging_name E (uuids w2) ".mp4")) = FfError message ->
  fst (merge_handler E fuel req w) = Ok (json 500 (ErrorBody message))
  /\ calls (snd (merge_handler E fuel req w))
     = calls w2
       ++ [FfmpegSave (command_of E req videoTmp audioTmp)
             (staging_name E (uuids w2) ".mp4")].
Proof.
  intros Hvalid Haudio Hvideo Herror.
  destruct (merge_handler E fuel req w) as [r w'] eqn:Hrun. cbn [fst snd].
  revert Hrun. rewrite (merge_handler_valid E fuel req w Hvalid).
  unfold try_catch, bind at 1. rewrite Haudio.
  unfold bind at 1. rewrite Hvideo.
  unfold bind at 1, tmpFile at 1. fold (staging_name E (uuids w2) ".mp4").
  unfold bind at 1.
  pose proof (save_calls E (command_of E req videoTmp audioTmp)
                (staging_name E (uuids w2) ".mp4") (next_uuid w2)) as Hcalls.
  assert (Hthrow : fst (save E (command_of E req videoTmp audioTmp)
                          (staging_name E (uuids w2) ".mp4") (next_uuid w2))
                   = Throw message).
  { unfold save. cbn [calls next_uuid]. by rewrite Herror. }
  destruct (save E _ _ (next_uuid w2)) as [r4 w4]. cbn [fst snd] in *. subst r4.
  unfold bind, log, ret. intros [= <- <-]. split; [done|].
  cbn [calls add_line]. by rewrite Hcalls.
Qed.

Lemma merge_error_is_reported_witness :
  fst (merge_handler Scenario.failing_engine 1 Scenario.by_path
         Scenario.empty_world)
  = Ok (json 500 (ErrorBody "ffmpeg exited with code 1"))
  /\ calls (snd (merge_handler Scenario.failing_engine 1 Scenario.by_path
                   Scenario.empty_world))
     = calls (snd (downloadToTemp Scenario.failing_engine VUndef
                     (VStr "/b.mp4") ".mp4"
                     (snd (downloadToTemp Scenario.failing_engine VUndef
                             (VStr "/a.mp3") ".mp3" Scenario.empty_world))))
       ++ [FfmpegSave
             (command_of Scenario.failing_engine Scenario.by_path
                "/tmp/staged-1.mp4" "/tmp/staged-0.mp3")
             (staging_name Scenario.failing_engine
                (uuids (snd (downloadToTemp Scenario.failing_engine VUndef
                               (VStr "/b.mp4") ".mp4"
                               (snd (downloadToTemp Scenario.failing_engine
                                       VUndef (VStr "/a.mp3") ".mp3"
                                       Scenario.empty_world)))))
                ".mp4")].
Proof.
  apply (merge_error_is_reported Scenario.failing_engine 1 Scenario.by_path
           Scenario.empty_world "/tmp/staged-0.mp3"
           (snd (downloadToTemp Scenario.failing_engine VUndef (VStr "/a.mp3")
                   ".mp3" Scenario.empty_world))
           "/tmp/staged-1.mp4"
           (snd (downloadToTemp Scenario.failing_engine VUndef (VStr "/b.mp4")
                   ".mp4"
                   (snd (downloadToTemp Scenario.failing_engine VUndef
                           (VStr "/a.mp3") ".mp3" Scenario.empty_world))))
           "ffmpeg exited with code 1").
  - repeat split.
  - vm_compute. reflexivity.
  - vm_compute. reflexivity.
  - reflexivity.
Defined.

(** ** Staging names *)

Lemma string_length_zero (s : string) : String.length s = 0%nat -> s = "".
Proof. by destruct s. Qed.

Lemma string_app_inj_both (s1 : string) : forall s2 t1 t2,
  s1 +:+ t1 = s2 +:+ t2 -> String.length t1 = String.length t2 ->
  s1 = s2 /\ t1 = t2.
Proof.
  induction s1 as [|c s1 IH]; intros [|d s2] t1 t2 Heq Hlen.
  - done.
  - exfalso. change ("" +:+ t1) with t1 in Heq.
    apply (f_equal String.length) in Heq.
    rewrite string_app_cons in Heq. simpl in Heq.
    rewrite string_length_app in Heq. lia.
  - exfalso. change ("" +:+ t2) with t2 in Heq.
    apply (f_equal String.length) in Heq.
    rewrite string_app_cons in Heq. simpl in Heq.
    rewrite string_length_app in Heq. lia.
  - rewrite !string_app_cons in Heq. injection Heq as -> Heq.
    destruct (IH s2 t1 t2 Heq Hlen) as [-> ->]. done.
Qed.

Lemma staging_name_inj E n m suffix1 suffix2 :
  String.length suffix1 = String.length suffix2 ->
  staging_name E n suffix1 = staging_name E m suffix2 ->
  randomUUID E n = randomUUID E m /\ suffix1 = suffix2.
Proof.
  unfold staging_name. intros Hlen Heq.
  apply (inj (String.append (tmpdir E))) in Heq.
  apply (inj (String.append "/")) in Heq.
  by apply string_app_inj_both.
Qed.

(** X17.  The three staging names of an invocation are pairwise
    different: the audio name differs from the other two by its extension,
    and the video and output names differ when the identifier source never
    repeats. *)
Theorem staging_names_distinct E n :
  staging_name E n ".mp3" <> staging_name E (S n) ".mp4"
  /\ staging_name E n ".mp3" <> staging_name E (S (S n)) ".mp4"
  /\ ((forall i j, randomUUID E i = randomUUID E j -> i = j) ->
      staging_name E (S n) ".mp4" <> staging_name E (S (S n)) ".mp4").
Proof.
  split; [|split].
  - intros Heq. by apply staging_name_inj in Heq as [_ Hsuffix].
  - intros Heq. by apply staging_name_inj in Heq as [_ Hsuffix].
  - intros Hinj Heq. apply staging_name_inj in Heq as [Huuid _]; [|done].
    apply Hinj in Huuid. lia.
Qed.

Lemma staging_names_distinct_witness :
  staging_name Scenario.provider 1 ".mp4"
  <> staging_name Scenario.provider 2 ".mp4".
Proof.
  apply (proj2 (proj2 (staging_names_distinct Scenario.provider 0))).
  intros i j Heq. cbn [randomUUID Scenario.provider Scenario.service] in Heq.
  unfold Scenario.uuid in Heq.
  apply (inj (String.append "staged-")) in Heq.
  by apply (inj pretty) in Heq.
Defined.
